(** * Verification of the normalisation core of claude-code-to-sqlite

    Shallow embedding of [src/claude_code_to_sqlite/utils.py]: the content
    extractor ([extract_text], [extract_thinking], [replace_base64_content]),
    the record parser ([_extract_records_from_bad_line], [load_session_file])
    and the two session normalisers ([process_session],
    [process_web_conversation]).

    Modelling conventions.
    - A parsed JSON value is [json]; numbers in session logs are integers,
      so JSON floats are not represented.  A Python dict is an association
      list with distinct keys.
    - Python strings are [String.string]; each [ascii] stands for the code
      point of the same value (U+0000 .. U+00FF).
    - Python exceptions are the [Raise] branch of the [pyres] monad, so a
      function that may raise returns [pyres A]. *)

From Stdlib Require Import String Ascii List ZArith Lia Bool Arith.
Import ListNotations.
Open Scope string_scope.
Open Scope list_scope.

(** ** Python values *)

#[warnings="-register-all"]

Inductive json : Type :=
| JNull
| JBool (b : bool)
| JNum (z : Z)
| JStr (s : string)
| JArr (l : list json)
| JObj (kvs : list (string * json)).

(** Python exceptions the embedded code can raise. *)
Inductive exc : Type :=
| TypeError
| AttributeError
| JSONDecodeError.

Inductive pyres (A : Type) : Type :=
| Ok (a : A)
| Raise (e : exc).

Arguments Ok {A} a.

Arguments Raise {A} e.

Definition pbind {A B} (m : pyres A) (k : A -> pyres B) : pyres B :=
  match m with
  | Ok a => k a
  | Raise e => Raise e
  end.

Notation "x <- m ;; k" := (pbind m (fun x => k))
  (at level 61, m at next level, right associativity).

(** [bool(v)] *)
Definition truthy (v : json) : bool :=
  match v with
  | JNull => false
  | JBool b => b
  | JNum z => negb (Z.eqb z 0)
  | JStr s => negb (String.eqb s "")
  | JArr l => match l with [] => false | _ => true end
  | JObj kvs => match kvs with [] => false | _ => true end
  end.

(** [a or b] *)
Definition py_or (a b : json) : json := if truthy a then a else b.

Fixpoint assoc_lookup (k : string) (kvs : list (string * json)) : option json :=
  match kvs with
  | [] => None
  | (k', v) :: rest => if String.eqb k k' then Some v else assoc_lookup k rest
  end.

(** [d.get(k, default)] on a dict. *)
Definition obj_get (kvs : list (string * json)) (k : string) (default : json) : json :=
  match assoc_lookup k kvs with
  | Some v => v
  | None => default
  end.

(** [d.get(k, default)]: only dicts have [get]. *)
Definition py_get (d : json) (k : string) (default : json) : pyres json :=
  match d with
  | JObj kvs => Ok (obj_get kvs k default)
  | _ => Raise AttributeError
  end.

(** [v == JStr s] for a string literal [s]. *)
Definition is_str (v : json) (s : string) : bool :=
  match v with
  | JStr s' => String.eqb s' s
  | _ => false
  end.

Definition is_list (v : json) : bool :=
  match v with JArr _ => true | _ => false end.

Definition is_dict (v : json) : bool :=
  match v with JObj _ => true | _ => false end.

(** ** Decimal rendering of integers ([str(n)], [f"{n}"]) *)

Definition digit_char (n : N) : ascii := ascii_of_N (48 + n).

Fixpoint dec_aux (fuel : nat) (n : N) (acc : string) : string :=
  match fuel with
  | O => acc
  | S f =>
      let acc' := String (digit_char (N.modulo n 10)) acc in
      if N.ltb n 10 then acc' else dec_aux f (N.div n 10) acc'
  end.

Definition dec_of_N (n : N) : string := dec_aux (S (N.to_nat (N.log2 n))) n EmptyString.

Definition dec_of_Z (z : Z) : string :=
  match z with
  | Zneg p => String "-" (dec_of_N (Npos p))
  | _ => dec_of_N (Z.to_N z)
  end.

(** ** [str()] and [repr()] of Python values *)

Definition hex_char (n : N) : ascii :=
  if N.ltb n 10 then ascii_of_N (48 + n) else ascii_of_N (87 + n).

(** [\xNN] escape used by [repr] for non-printable code points. *)
Definition hex_escape (c : ascii) : string :=
  let n := N_of_ascii c in
  String "\" (String "x" (String (hex_char (N.div n 16))
    (String (hex_char (N.modulo n 16)) EmptyString))).

(** The double quote character and the one-character string holding it. *)
Definition dq : ascii := ascii_of_nat 34.

Definition dq_str : string := String dq EmptyString.

(** [str.isprintable] on U+0000 .. U+00FF. *)
Definition printable (c : ascii) : bool :=
  let n := N_of_ascii c in
  negb (N.ltb n 32 || (N.leb 127 n && N.leb n 160) || N.eqb n 173).

Fixpoint str_has (c : ascii) (s : string) : bool :=
  match s with
  | EmptyString => false
  | String c' r => Ascii.eqb c c' || str_has c r
  end.

Fixpoint repr_body (q : ascii) (s : string) : string :=
  match s with
  | EmptyString => EmptyString
  | String c r =>
      let esc :=
        if Ascii.eqb c q || Ascii.eqb c "\" then String "\" (String c EmptyString)
        else if Ascii.eqb c (ascii_of_nat 9) then "\t"%string
        else if Ascii.eqb c (ascii_of_nat 10) then "\n"%string
        else if Ascii.eqb c (ascii_of_nat 13) then "\r"%string
        else if printable c then String c EmptyString
        else hex_escape c in
      (esc ++ repr_body q r)%string
  end.

(** [repr(s)] for a string: single quotes unless the string holds a single
    quote and no double quote. *)
Definition repr_str (s : string) : string :=
  let q := if str_has "'" s && negb (str_has dq s) then dq else "'"%char in
  String q (repr_body q s ++ String q EmptyString)%string.

Fixpoint py_repr (v : json) : string :=
  match v with
  | JNull => "None"
  | JBool true => "True"
  | JBool false => "False"
  | JNum z => dec_of_Z z
  | JStr s => repr_str s
  | JArr l =>
      "[" ++ (fix go (l : list json) : string :=
                match l with
                | [] => ""
                | [x] => py_repr x
                | x :: r => py_repr x ++ ", " ++ go r
                end) l ++ "]"
  | JObj kvs =>
      "{" ++ (fix go (kvs : list (string * json)) : string :=
                match kvs with
                | [] => ""
                | [(k, x)] => repr_str k ++ ": " ++ py_repr x
                | (k, x) :: r => repr_str k ++ ": " ++ py_repr x ++ ", " ++ go r
                end) kvs ++ "}"
  end%string.

(** [str(v)]: a string is itself, anything else its [repr]. *)
Definition py_str (v : json) : string :=
  match v with
  | JStr s => s
  | _ => py_repr v
  end.

Definition newline : string := String (ascii_of_nat 10) EmptyString.

Fixpoint join_strings (sep : string) (l : list string) : string :=
  match l with
  | [] => EmptyString
  | [x] => x
  | x :: r => (x ++ sep ++ join_strings sep r)%string
  end.

(** [sep.join(parts)]: raises [TypeError] on a part that is not a string. *)
Fixpoint all_strs (parts : list json) : pyres (list string) :=
  match parts with
  | [] => Ok []
  | JStr s :: r => rest <- all_strs r ;; Ok (s :: rest)
  | _ :: _ => Raise TypeError
  end.

Definition py_join (sep : string) (parts : list json) : pyres string :=
  ss <- all_strs parts ;; Ok (join_strings sep ss).

(** [for x in l: out.append(f(x))] where [f] may raise. *)
Fixpoint map_m {A B} (f : A -> pyres B) (l : list A) : pyres (list B) :=
  match l with
  | [] => Ok []
  | x :: r => y <- f x ;; ys <- map_m f r ;; Ok (y :: ys)
  end.

(** [len(v)] *)
Definition py_len (v : json) : pyres nat :=
  match v with
  | JStr s => Ok (String.length s)
  | JArr l => Ok (List.length l)
  | JObj kvs => Ok (List.length kvs)
  | _ => Raise TypeError
  end.

(** [needle in hay] for strings. *)
Fixpoint str_contains (needle hay : string) : bool :=
  String.prefix needle hay ||
  match hay with
  | EmptyString => false
  | String _ r => str_contains needle r
  end.

(** ** Content extraction *)

(** [_base64_decoded_size_kb(n)] is the float [(n * 3 / 4) / 1024], exact as a
    binary float for every string length below 2^51; [f"{x:.0f}"] rounds it
    half to even.  [round_half_even num den] rounds [num / den]. *)
Definition round_half_even (num den : N) : N :=
  let q := N.div num den in
  let r := N.modulo num den in
  match N.compare (2 * r) den with
  | Lt => q
  | Gt => q + 1
  | Eq => if N.even q then q else q + 1
  end.

Definition size_kb_0f (encoded_len : nat) : string :=
  dec_of_N (round_half_even (3 * N.of_nat encoded_len) 4096).

Definition base64_placeholder (ctype media : json) (encoded_len : nat) : string :=
  ("[" ++ py_str ctype ++ ": " ++ py_str media ++ ", ~" ++ size_kb_0f encoded_len
   ++ "KB decoded]")%string.

(** The [source.get("type") == "base64"] test shared by the dict and the list
    branches of [replace_base64_content]; [None] when it does not hold. *)
Definition base64_block (item : json) : pyres (option string) :=
  source <- py_get item "source" (JObj []) ;;
  ty <- py_get source "type" JNull ;;
  if is_str ty "base64" then
    data <- py_get source "data" (JStr "") ;;
    n <- py_len data ;;
    media <- py_get source "media_type" (JStr "unknown") ;;
    ctype <- py_get item "type" (JStr "file") ;;
    Ok (Some (base64_placeholder ctype media n))
  else Ok None.

Definition replace_base64_content (content : json) : pyres string :=
  match content with
  | JStr s =>
      if str_contains "base64" (substring 0 500 s) && Nat.ltb 1000 (String.length s)
      then Ok ("[base64 content, ~" ++ size_kb_0f (String.length s) ++ "KB decoded]")%string
      else Ok s
  | JObj _ =>
      r <- base64_block content ;;
      match r with
      | Some p => Ok p
      | None => Ok (py_str content)
      end
  | JArr items =>
      parts <- map_m (fun item =>
                 if is_dict item then
                   r <- base64_block item ;;
                   match r with
                   | Some p => Ok (JStr p)
                   | None =>
                       ty <- py_get item "type" JNull ;;
                       if is_str ty "text" then py_get item "text" (JStr "")
                       else Ok (JStr (py_str item))
                   end
                 else Ok (JStr (py_str item))) items ;;
      py_join newline parts
  | _ => Ok (py_str content)
  end.

(** One block of [extract_text]; [None] for a thinking block ([pass]).  The
    source's [isinstance(result, list)] test after [replace_base64_content]
    never holds, since that function always returns a string. *)
Definition text_of_block (block : json) : pyres (option json) :=
  if is_dict block then
    btype <- py_get block "type" JNull ;;
    if is_str btype "text" then
      t <- py_get block "text" (JStr "") ;; Ok (Some t)
    else if is_str btype "thinking" then Ok None
    else if is_str btype "tool_use" then
      name <- py_get block "name" (JStr "") ;;
      Ok (Some (JStr ("[tool_use: " ++ py_str name ++ "]")%string))
    else if is_str btype "tool_result" then
      result <- py_get block "content" (JStr "") ;;
      r <- replace_base64_content result ;;
      Ok (Some (JStr r))
    else if is_str btype "image" || is_str btype "document" then
      r <- replace_base64_content block ;; Ok (Some (JStr r))
    else Ok (Some (JStr (py_str block)))
  else Ok (Some (JStr (py_str block))).

Fixpoint somes {A} (l : list (option A)) : list A :=
  match l with
  | [] => []
  | Some x :: r => x :: somes r
  | None :: r => somes r
  end.

Definition extract_text (raw_content : json) : pyres string :=
  match raw_content with
  | JNull => Ok ""
  | JStr s => Ok s
  | JArr blocks =>
      parts <- map_m text_of_block blocks ;;
      py_join newline (somes parts)
  | _ => Ok (py_str raw_content)
  end.

(** One block of [extract_thinking]: its truthy [thinking] text, if any. *)
Definition thinking_of_block (block : json) : pyres (option json) :=
  if is_dict block then
    ty <- py_get block "type" JNull ;;
    if is_str ty "thinking" then
      text <- py_get block "thinking" (JStr "") ;;
      Ok (if truthy text then Some text else None)
    else Ok None
  else Ok None.

(** [extract_thinking]: [JNull] is Python's [None]. *)
Definition extract_thinking (raw_content : json) : pyres json :=
  match raw_content with
  | JArr blocks =>
      found <- map_m thinking_of_block blocks ;;
      match somes found with
      | [] => Ok JNull
      | parts => s <- py_join newline parts ;; Ok (JStr s)
      end
  | _ => Ok JNull
  end.

(** [extract_tool_calls]: the [(id, name, input)] of each [tool_use] block. *)
Definition extract_tool_calls (raw_content : json) : pyres (list (json * json * json)) :=
  match raw_content with
  | JArr blocks =>
      found <- map_m (fun block =>
                 if is_dict block then
                   ty <- py_get block "type" JNull ;;
                   if is_str ty "tool_use" then
                     i <- py_get block "id" (JStr "") ;;
                     n <- py_get block "name" (JStr "") ;;
                     inp <- py_get block "input" (JObj []) ;;
                     Ok (Some (i, n, inp))
                   else Ok None
                 else Ok None) blocks ;;
      Ok (somes found)
  | _ => Ok []
  end.

(** ** Record parser *)




(** [[m.start() for m in re.finditer(pat, s)]] for a literal pattern: after a
    match the scan resumes at the end of that match ([skip] positions are
    passed over). *)
Fixpoint finditer_aux (pat : string) (skip pos : nat) (s : string) : list nat :=
  match s with
  | EmptyString => []
  | String _ r =>
      match skip with
      | S k => finditer_aux pat k (S pos) r
      | O =>
          if String.prefix pat s
          then pos :: finditer_aux pat (String.length pat - 1) (S pos) r
          else finditer_aux pat 0 (S pos) r
      end
  end.

Definition finditer_starts (pat s : string) : list nat := finditer_aux pat 0 0 s.

(** The two record-opening patterns [\{"parentUuid"] and [\{"type":]. *)
Definition pat_parent_uuid : string := ("{" ++ dq_str ++ "parentUuid" ++ dq_str)%string.

Definition pat_type : string := ("{" ++ dq_str ++ "type" ++ dq_str ++ ":")%string.

(** [sorted(set(xs))] on naturals. *)
Fixpoint insert_uniq (n : nat) (l : list nat) : list nat :=
  match l with
  | [] => [n]
  | m :: r =>
      if Nat.ltb n m then n :: l
      else if Nat.eqb n m then l
      else m :: insert_uniq n r
  end.

Definition sorted_set (l : list nat) : list nat := fold_right insert_uniq [] l.

Definition bad_line_starts (line : string) : list nat :=
  sorted_set (finditer_starts pat_parent_uuid line ++ finditer_starts pat_type line).




Section Loader.

(** [json.loads]: [None] when it raises [json.JSONDecodeError]. *)
Variable json_loads : string -> option json.





(** The [.json] branch: a parse failure of the document propagates. *)
Definition load_json_document (text : string) : pyres json :=
  match json_loads text with
  | None => Raise JSONDecodeError
  | Some (JObj kvs) =>
      match assoc_lookup "loglines" kvs with
      | Some v => Ok v
      | None => Ok (JArr [JObj kvs])
      end
  | Some (JArr l) => Ok (JArr l)
  | Some data => Ok (JArr [data])
  end.

End Loader.

(** ** Rows *)

(** A [MessageRow] dict.  [tool_names] holds the list before [json.dumps]. *)
Record message_row := {
  mr_session_id : json;
  mr_message_index : nat;
  mr_role : json;
  mr_content : json;
  mr_thinking : json;
  mr_timestamp : json;
  mr_uuid : json;
  mr_parent_uuid : json;
  mr_model : json;
  mr_record_type : json;
  mr_tool_names : json;
  mr_tool_use_id : json;
  mr_is_tool_result : bool;
  mr_is_sidechain : json;
  mr_input_tokens : json;
  mr_output_tokens : json;
  mr_cache_read_tokens : json;
  mr_cache_create_tokens : json;
  mr_stop_reason : json;
  mr_duration_ms : json
}.

(** A [SessionRow] dict.  [models] holds the sorted list before [json.dumps];
    [file_path] and [file_size_bytes] come from the file system and are not
    represented. *)
Record session_row := {
  sr_session_id : json;
  sr_project : json;
  sr_cwd : json;
  sr_client_version : json;
  sr_permission_mode : json;
  sr_models : json;
  sr_summary : json;
  sr_custom_title : json;
  sr_start_time : json;
  sr_end_time : json;
  sr_message_count : nat;
  sr_user_message_count : nat;
  sr_assistant_message_count : nat;
  sr_total_input_tokens : Z;
  sr_total_output_tokens : Z;
  sr_total_tokens : Z;
  sr_source : string
}.

(** The 100,000-character cap on stored [content] and [thinking] (written as
    a product so that it unfolds lazily). *)
Definition text_cap : nat := 100 * 1000.

(** [s[:100_000] if s else ""] for a Python string. *)
Definition truncate_content (s : string) : string :=
  if String.eqb s "" then "" else substring 0 text_cap s.

(** [thinking[:100_000] if thinking else None] *)
Definition truncate_thinking (t : json) : json :=
  match t with
  | JStr s => if String.eqb s "" then JNull else JStr (substring 0 text_cap s)
  | _ => JNull
  end.

(** [v[:100_000] if v else ""] for any value: strings and lists slice, other
    truthy values are not subscriptable. *)
Definition py_truncate (v : json) : pyres json :=
  if truthy v then
    match v with
    | JStr s => Ok (JStr (substring 0 text_cap s))
    | JArr l => Ok (JArr (firstn text_cap l))
    | _ => Raise TypeError
    end
  else Ok (JStr "").

(** [total += n] with [total] an int. *)
Definition py_add_int (total : Z) (n : json) : pyres Z :=
  match n with
  | JNum z => Ok (total + z)%Z
  | JBool b => Ok (total + if b then 1 else 0)%Z
  | _ => Raise TypeError
  end.

(** [a == b] between hashable values ([1 == True]). *)
Definition num_of (v : json) : option Z :=
  match v with
  | JNum z => Some z
  | JBool b => Some (if b then 1 else 0)%Z
  | _ => None
  end.

Definition py_eq_hashable (a b : json) : bool :=
  match a, b with
  | JNull, JNull => true
  | JStr x, JStr y => String.eqb x y
  | _, _ =>
      match num_of a, num_of b with
      | Some x, Some y => Z.eqb x y
      | _, _ => false
      end
  end.

(** [s.add(v)]: lists and dicts are unhashable. *)
Definition set_add (v : json) (s : list json) : pyres (list json) :=
  match v with
  | JArr _ | JObj _ => Raise TypeError
  | _ => if existsb (py_eq_hashable v) s then Ok s else Ok (s ++ [v])
  end.

(** [a < b]: strings by code point, numbers (with bools) numerically.  Other
    pairs raise [TypeError]; Python would order two lists element-wise, a
    case no claim below depends on. *)
Definition py_lt (a b : json) : pyres bool :=
  match a, b with
  | JStr x, JStr y => Ok (String.ltb x y)
  | _, _ =>
      match num_of a, num_of b with
      | Some x, Some y => Ok (Z.ltb x y)
      | _, _ => Raise TypeError
      end
  end.

(** [min(xs)] / [max(xs)] on a non-empty list: the first element is kept
    unless a later one is strictly smaller (greater). *)
Fixpoint py_min_from (cur : json) (xs : list json) : pyres json :=
  match xs with
  | [] => Ok cur
  | x :: r => lt <- py_lt x cur ;; py_min_from (if lt then x else cur) r
  end.

Fixpoint py_max_from (cur : json) (xs : list json) : pyres json :=
  match xs with
  | [] => Ok cur
  | x :: r => gt <- py_lt cur x ;; py_max_from (if gt then x else cur) r
  end.

(** [min(xs) if xs else default] *)
Definition min_or (xs : list json) (default : json) : pyres json :=
  match xs with [] => Ok default | x :: r => py_min_from x r end.

Definition max_or (xs : list json) (default : json) : pyres json :=
  match xs with [] => Ok default | x :: r => py_max_from x r end.

(** [sorted(xs)] (insertion sort: it raises exactly when two elements are
    incomparable, as any comparison sort does on these values). *)
Fixpoint sorted_insert (x : json) (l : list json) : pyres (list json) :=
  match l with
  | [] => Ok [x]
  | y :: r => lt <- py_lt x y ;;
      if lt then Ok (x :: l) else (r' <- sorted_insert x r ;; Ok (y :: r'))
  end.

Fixpoint py_sorted (xs : list json) : pyres (list json) :=
  match xs with
  | [] => Ok []
  | x :: r => r' <- py_sorted r ;; sorted_insert x r'
  end.

(** [for record in records] *)
Definition py_iter (v : json) : pyres (list json) :=
  match v with
  | JArr l => Ok l
  | JObj kvs => Ok (map (fun kv => JStr (fst kv)) kvs)
  | JStr s => Ok (map (fun c => JStr (String c EmptyString)) (list_ascii_of_string s))
  | _ => Raise TypeError
  end.

Definition count_role (r : string) (rows : list message_row) : nat :=
  List.length (filter (fun m => is_str (mr_role m) r) rows).

(** ** CLI/browser session normaliser ([process_session]) *)

(** The running state of the loop over records. *)
Record pstate := {
  ps_session_id : json;
  ps_summary : json;
  ps_custom_title : json;
  ps_models : list json;
  ps_total_input_tokens : Z;
  ps_total_output_tokens : Z;
  ps_timestamps : list json;
  ps_cwd : json;
  ps_client_version : json;
  ps_permission_mode : json;
  ps_message_rows : list message_row;
  ps_msg_index : nat;
  ps_source : string
}.

Definition pstate_init : pstate := {|
  ps_session_id := JNull; ps_summary := JNull; ps_custom_title := JNull;
  ps_models := []; ps_total_input_tokens := 0%Z; ps_total_output_tokens := 0%Z;
  ps_timestamps := []; ps_cwd := JNull; ps_client_version := JNull;
  ps_permission_mode := JNull; ps_message_rows := []; ps_msg_index := 0;
  ps_source := "cli" |}.

(** [if not x: x = record.get(k)] *)
Definition first_seen (cur record : json) (k : string) : pyres json :=
  if truthy cur then Ok cur else py_get record k JNull.

(** The [tool_use_id] of the first [tool_result] block, if there is one. *)
Fixpoint first_tool_result (blocks : list json) : option json :=
  match blocks with
  | [] => None
  | JObj kvs :: r =>
      if is_str (obj_get kvs "type" JNull) "tool_result"
      then Some (obj_get kvs "tool_use_id" JNull)
      else first_tool_result r
  | _ :: r => first_tool_result r
  end.

Section ProcessSession.

(** [filepath.stem] *)
Variable stem : string.

(** The message row built for a conversational record, with the models set
    and the two token totals after it.  [sid] is [session_id] at that point. *)
Definition message_of_record (st : pstate) (sid rtype ts record : json)
  : pyres (message_row * list json * Z * Z) :=
  msg <- py_get record "message" (JObj []) ;;
  mrole <- py_get msg "role" JNull ;;
  let role := py_or (py_or mrole rtype) (JStr "unknown") in
  c1 <- py_get msg "content" JNull ;;
  raw_content <- (if truthy c1 then Ok c1 else py_get record "content" (JStr "")) ;;
  model <- py_get msg "model" JNull ;;
  models <- (if truthy model then set_add model (ps_models st) else Ok (ps_models st)) ;;
  usage <- py_get msg "usage" (JObj []) ;;
  input_tokens <- py_get usage "input_tokens" (JNum 0) ;;
  output_tokens <- py_get usage "output_tokens" (JNum 0) ;;
  cache_read <- py_get usage "cache_read_input_tokens" (JNum 0) ;;
  cache_create <- py_get usage "cache_creation_input_tokens" (JNum 0) ;;
  tin <- py_add_int (ps_total_input_tokens st) input_tokens ;;
  tout <- py_add_int (ps_total_output_tokens st) output_tokens ;;
  content_text <- extract_text raw_content ;;
  thinking <- (if is_str role "assistant" then extract_thinking raw_content else Ok JNull) ;;
  tool_calls <- extract_tool_calls raw_content ;;
  let tool_names :=
    match tool_calls with
    | [] => JNull
    | _ => JArr (map (fun '(_, n, _) => n) tool_calls)
    end in
  let '(tool_use_id, is_tool_result) :=
    match raw_content with
    | JArr blocks =>
        match first_tool_result blocks with
        | Some i => (i, true)
        | None => (JNull, false)
        end
    | _ => (JNull, false)
    end in
  uuid <- py_get record "uuid" JNull ;;
  parent_uuid <- py_get record "parentUuid" JNull ;;
  is_sidechain <- py_get record "isSidechain" (JBool false) ;;
  sr <- py_get record "stopReason" JNull ;;
  stop_reason <- (if truthy sr then Ok sr else py_get msg "stop_reason" JNull) ;;
  duration <- py_get record "durationMs" JNull ;;
  Ok ({| mr_session_id := sid;
         mr_message_index := ps_msg_index st;
         mr_role := role;
         mr_content := JStr (truncate_content content_text);
         mr_thinking := truncate_thinking thinking;
         mr_timestamp := ts;
         mr_uuid := uuid;
         mr_parent_uuid := parent_uuid;
         mr_model := model;
         mr_record_type := rtype;
         mr_tool_names := tool_names;
         mr_tool_use_id := tool_use_id;
         mr_is_tool_result := is_tool_result;
         mr_is_sidechain := is_sidechain;
         mr_input_tokens := py_or input_tokens JNull;
         mr_output_tokens := py_or output_tokens JNull;
         mr_cache_read_tokens := py_or cache_read JNull;
         mr_cache_create_tokens := py_or cache_create JNull;
         mr_stop_reason := stop_reason;
         mr_duration_ms := duration |}, models, tin, tout).

(** One iteration of [for record in records]. *)
Definition ps_step (st : pstate) (record : json) : pyres pstate :=
  rtype <- py_get record "type" JNull ;;
  src <- (if is_str rtype "metadata" then py_get record "source" JNull else Ok JNull) ;;
  if is_str rtype "metadata" && is_str src "browser_export" then
    sid <- py_get record "original_uuid" (JStr stem) ;;
    title <- py_get record "name" JNull ;;
    Ok {| ps_session_id := sid; ps_summary := ps_summary st; ps_custom_title := title;
          ps_models := ps_models st; ps_total_input_tokens := ps_total_input_tokens st;
          ps_total_output_tokens := ps_total_output_tokens st;
          ps_timestamps := ps_timestamps st; ps_cwd := ps_cwd st;
          ps_client_version := ps_client_version st;
          ps_permission_mode := ps_permission_mode st;
          ps_message_rows := ps_message_rows st; ps_msg_index := ps_msg_index st;
          ps_source := "browser" |}
  else
    sid <- (if truthy (ps_session_id st) then Ok (ps_session_id st)
            else py_get record "sessionId" (JStr stem)) ;;
    cwd <- first_seen (ps_cwd st) record "cwd" ;;
    version <- first_seen (ps_client_version st) record "version" ;;
    pm <- (if truthy (ps_permission_mode st) then Ok (ps_permission_mode st)
           else (p <- py_get record "permissionMode" JNull ;;
                 Ok (if truthy p then p else ps_permission_mode st))) ;;
    ts <- py_get record "timestamp" JNull ;;
    let timestamps := if truthy ts then ps_timestamps st ++ [ts] else ps_timestamps st in
    let keep summary title :=
      {| ps_session_id := sid; ps_summary := summary; ps_custom_title := title;
         ps_models := ps_models st; ps_total_input_tokens := ps_total_input_tokens st;
         ps_total_output_tokens := ps_total_output_tokens st;
         ps_timestamps := timestamps; ps_cwd := cwd; ps_client_version := version;
         ps_permission_mode := pm; ps_message_rows := ps_message_rows st;
         ps_msg_index := ps_msg_index st; ps_source := ps_source st |} in
    if is_str rtype "summary" then
      s <- py_get record "summary" (JStr "") ;; Ok (keep s (ps_custom_title st))
    else if is_str rtype "custom-title" then
      t <- py_get record "customTitle" (JStr "") ;; Ok (keep (ps_summary st) t)
    else if is_str rtype "file-history-snapshot" then
      Ok (keep (ps_summary st) (ps_custom_title st))
    else
      res <- message_of_record st sid rtype ts record ;;
      let '(row, models, tin, tout) := res in
      Ok {| ps_session_id := sid; ps_summary := ps_summary st;
            ps_custom_title := ps_custom_title st; ps_models := models;
            ps_total_input_tokens := tin; ps_total_output_tokens := tout;
            ps_timestamps := timestamps; ps_cwd := cwd; ps_client_version := version;
            ps_permission_mode := pm; ps_message_rows := ps_message_rows st ++ [row];
            ps_msg_index := S (ps_msg_index st); ps_source := ps_source st |}.

Fixpoint ps_loop (st : pstate) (records : list json) : pyres pstate :=
  match records with
  | [] => Ok st
  | r :: rest => st' <- ps_step st r ;; ps_loop st' rest
  end.

(** [process_session] after [load_session_file] returned [records]:
    [None] is the [(None, [], warnings)] result. *)
Definition process_session (project records : json)
  : pyres (option (session_row * list message_row)) :=
  if negb (truthy records) then Ok None
  else
    recs <- py_iter records ;;
    st <- ps_loop pstate_init recs ;;
    if negb (truthy (ps_session_id st)) then Ok None
    else
      models <- (match ps_models st with
                 | [] => Ok JNull
                 | ms => sorted <- py_sorted ms ;; Ok (JArr sorted)
                 end) ;;
      start_time <- min_or (ps_timestamps st) JNull ;;
      end_time <- max_or (ps_timestamps st) JNull ;;
      let rows := ps_message_rows st in
      Ok (Some ({| sr_session_id := ps_session_id st; sr_project := project;
                   sr_cwd := ps_cwd st; sr_client_version := ps_client_version st;
                   sr_permission_mode := ps_permission_mode st; sr_models := models;
                   sr_summary := ps_summary st; sr_custom_title := ps_custom_title st;
                   sr_start_time := start_time; sr_end_time := end_time;
                   sr_message_count := List.length rows;
                   sr_user_message_count := count_role "user" rows;
                   sr_assistant_message_count := count_role "assistant" rows;
                   sr_total_input_tokens := ps_total_input_tokens st;
                   sr_total_output_tokens := ps_total_output_tokens st;
                   sr_total_tokens := (ps_total_input_tokens st + ps_total_output_tokens st)%Z;
                   sr_source := ps_source st |}, rows)).

End ProcessSession.

(** ** Web-export normaliser ([process_web_conversation]) *)

(** [{"human": "user", "assistant": "assistant"}.get(sender, sender)] *)
Definition map_sender (sender : json) : pyres json :=
  match sender with
  | JArr _ | JObj _ => Raise TypeError
  | _ => if is_str sender "human" then Ok (JStr "user") else Ok sender
  end.

(** One turn of [for msg_index, msg in enumerate(chat_messages)]: its row and
    its timestamp. *)
Definition web_message (session_id : json) (msg_index : nat) (msg : json)
  : pyres (message_row * json) :=
  sender <- py_get msg "sender" (JStr "unknown") ;;
  role <- map_sender sender ;;
  raw_content <- py_get msg "content" JNull ;;
  text_field <- py_get msg "text" (JStr "") ;;
  ct <- (if is_list raw_content && truthy raw_content then
           content_text <- extract_text raw_content ;;
           thinking <- extract_thinking raw_content ;;
           Ok (JStr content_text, thinking)
         else Ok (py_or text_field (JStr ""), JNull)) ;;
  let '(content_text, thinking) := ct in
  ts <- py_get msg "created_at" JNull ;;
  content <- py_truncate content_text ;;
  uuid <- py_get msg "uuid" JNull ;;
  Ok ({| mr_session_id := session_id;
         mr_message_index := msg_index;
         mr_role := role;
         mr_content := content;
         mr_thinking := truncate_thinking thinking;
         mr_timestamp := ts;
         mr_uuid := uuid;
         mr_parent_uuid := JNull;
         mr_model := JNull;
         mr_record_type := role;
         mr_tool_names := JNull;
         mr_tool_use_id := JNull;
         mr_is_tool_result := false;
         mr_is_sidechain := JBool false;
         mr_input_tokens := JNull;
         mr_output_tokens := JNull;
         mr_cache_read_tokens := JNull;
         mr_cache_create_tokens := JNull;
         mr_stop_reason := JNull;
         mr_duration_ms := JNull |}, ts).

(** The loop: rows in order and the truthy timestamps seen. *)
Fixpoint web_loop (session_id : json) (msg_index : nat) (msgs : list json)
  : pyres (list message_row * list json) :=
  match msgs with
  | [] => Ok ([], [])
  | msg :: rest =>
      r <- web_message session_id msg_index msg ;;
      let '(row, ts) := r in
      acc <- web_loop session_id (S msg_index) rest ;;
      let '(rows, tss) := acc in
      Ok (row :: rows, if truthy ts then ts :: tss else tss)
  end.

(** [process_web_conversation(conversation)]; [None] is [(None, [])]. *)
Definition process_web_conversation (conversation : json)
  : pyres (option (session_row * list message_row)) :=
  session_id <- py_get conversation "uuid" (JStr "") ;;
  name <- py_get conversation "name" (JStr "") ;;
  summary_text <- py_get conversation "summary" (JStr "") ;;
  created_at <- py_get conversation "created_at" JNull ;;
  updated_at <- py_get conversation "updated_at" JNull ;;
  chat_messages <- py_get conversation "chat_messages" (JArr []) ;;
  if negb (truthy chat_messages) then Ok None
  else
    msgs <- py_iter chat_messages ;;
    acc <- web_loop session_id 0 msgs ;;
    let '(rows, timestamps) := acc in
    start_time <- min_or timestamps created_at ;;
    end_time <- max_or timestamps updated_at ;;
    Ok (Some ({| sr_session_id := session_id; sr_project := JNull;
                 sr_cwd := JNull; sr_client_version := JNull;
                 sr_permission_mode := JNull; sr_models := JNull;
                 sr_summary := py_or summary_text JNull;
                 sr_custom_title := py_or name JNull;
                 sr_start_time := start_time; sr_end_time := end_time;
                 sr_message_count := List.length rows;
                 sr_user_message_count := count_role "user" rows;
                 sr_assistant_message_count := count_role "assistant" rows;
                 sr_total_input_tokens := 0%Z; sr_total_output_tokens := 0%Z;
                 sr_total_tokens := 0%Z; sr_source := "web" |}, rows)).

(** * Notions used in the statements *)

(** ** Content extractor *)

(** ["base64" in s[:500]] stated on the text itself. *)
Definition base64_in_first_500 (s : string) : Prop :=
  exists pre post, substring 0 500 s = (pre ++ "base64" ++ post)%string.

(** [len(s) > 1000] *)
Definition longer_than_1000 (s : string) : Prop := 1000 < String.length s.

Fixpoint pad_string (n : nat) (c : ascii) : string :=
  match n with O => EmptyString | S k => String c (pad_string k c) end.

(** A 2048-character payload: [3 * 2048 / 4096 = 1.5] is a rounding tie. *)
Definition base64_sample : string := ("data:image/png;base64," ++ pad_string 2026 "A")%string.

(** ** Thinking blocks *)

(** The non-empty [thinking] texts of the thinking-typed dict blocks, in
    order. *)
Fixpoint thinking_texts (blocks : list json) : list string :=
  match blocks with
  | [] => []
  | JObj kvs :: r =>
      if is_str (obj_get kvs "type" JNull) "thinking" then
        match obj_get kvs "thinking" (JStr "") with
        | JStr t => if String.eqb t "" then thinking_texts r else t :: thinking_texts r
        | _ => thinking_texts r
        end
      else thinking_texts r
  | _ :: r => thinking_texts r
  end.

(** Every thinking-typed dict block's [thinking] value is a string or falsy
    (a truthy non-string value makes ["\n".join] raise). *)
Definition thinking_values_ok (blocks : list json) : Prop :=
  forall kvs, In (JObj kvs) blocks ->
    is_str (obj_get kvs "type" JNull) "thinking" = true ->
    (exists t, obj_get kvs "thinking" (JStr "") = JStr t)
    \/ truthy (obj_get kvs "thinking" (JStr "")) = false.

(** ** Process-session invariants *)

(** [record.get(k, d)] on a parsed record; non-dict records make the loop
    raise before this is consulted. *)
Definition field (r : json) (k : string) (d : json) : json :=
  match r with JObj kvs => obj_get kvs k d | _ => d end.

Definition is_browser_metadata (r : json) : bool :=
  is_str (field r "type" JNull) "metadata"
  && is_str (field r "source" JNull) "browser_export".

(** A record of none of the four skipped kinds. *)
Definition is_turn (r : json) : bool :=
  negb (is_browser_metadata r)
  && negb (is_str (field r "type" JNull) "summary")
  && negb (is_str (field r "type" JNull) "custom-title")
  && negb (is_str (field r "type" JNull) "file-history-snapshot").

(** [record["message"]["usage"][k]], [0] when absent. *)
Definition usage_value (r : json) (k : string) : json :=
  match field r "message" (JObj []) with
  | JObj m =>
      match obj_get m "usage" (JObj []) with
      | JObj u => obj_get u k (JNum 0)
      | _ => JNull
      end
  | _ => JNull
  end.

(** What a message row keeps of the record it comes from. *)
Definition row_of_record (row : message_row) (r : json) : Prop :=
  mr_uuid row = field r "uuid" JNull
  /\ mr_record_type row = field r "type" JNull
  /\ mr_timestamp row = field r "timestamp" JNull
  /\ mr_input_tokens row = py_or (usage_value r "input_tokens") JNull
  /\ mr_output_tokens row = py_or (usage_value r "output_tokens") JNull
  /\ mr_cache_read_tokens row = py_or (usage_value r "cache_read_input_tokens") JNull
  /\ mr_cache_create_tokens row = py_or (usage_value r "cache_creation_input_tokens") JNull
  /\ exists s, mr_content row = JStr s.

(** ** Web-export invariants *)

(** The turn's [text] field is a string, or falsy (then [""] is stored). *)
Definition text_is_str (msg : json) : Prop :=
  (exists t, field msg "text" (JStr "") = JStr t)
  \/ truthy (field msg "text" (JStr "")) = false.

(** What a web message row keeps of its chat turn. *)
Definition web_row_of_msg (row : message_row) (msg : json) : Prop :=
  mr_uuid row = field msg "uuid" JNull
  /\ mr_timestamp row = field msg "created_at" JNull
  /\ mr_content row <> JNull
  /\ (text_is_str msg -> exists s, mr_content row = JStr s).

(** ** Sample inputs *)

Definition sample_user : json :=
  JObj [("type", JStr "user"); ("sessionId", JStr "abc-123");
        ("timestamp", JStr "2025-06-15T10:00:00Z"); ("uuid", JStr "msg-001");
        ("message", JObj [("role", JStr "user"); ("content", JStr "Hello")])].

Definition sample_assistant : json :=
  JObj [("type", JStr "assistant"); ("sessionId", JStr "abc-123");
        ("timestamp", JStr "2025-06-15T10:00:05Z"); ("uuid", JStr "msg-002");
        ("message", JObj [("role", JStr "assistant");
           ("content", JArr [JObj [("type", JStr "text"); ("text", JStr "Sure")]]);
           ("usage", JObj [("input_tokens", JNum 100); ("output_tokens", JNum 50);
                           ("cache_read_input_tokens", JNum 0)])])].

(** A summary, a user turn, a file-history snapshot and an assistant turn. *)
Definition sample_records : list json :=
  [JObj [("type", JStr "summary"); ("summary", JStr "Test session")];
   sample_user;
   JObj [("type", JStr "file-history-snapshot"); ("timestamp", JStr "2025-06-15T09:59:59Z")];
   sample_assistant].

Definition sample_conversation : json :=
  JObj [("uuid", JStr "web-conv-001"); ("name", JStr "Car");
        ("chat_messages",
          JArr [JObj [("uuid", JStr "w1"); ("sender", JStr "human"); ("text", JStr "hi");
                      ("created_at", JStr "2025-01-01T00:00:00Z")];
                JObj [("uuid", JStr "w2"); ("sender", JStr "assistant");
                      ("content", JArr [JObj [("type", JStr "text"); ("text", JStr "yo")]])]])].

(** A stored token count: null, or a truthy value (so never the integer 0). *)
Definition token_stored (v : json) : Prop := v = JNull \/ truthy v = true.

(** ** Occurrences of the record-opening patterns *)

(** [s[k:]] *)
Fixpoint str_drop (k : nat) (s : string) : string :=
  match k, s with
  | O, _ => s
  | S k', String _ r => str_drop k' r
  | S _, EmptyString => EmptyString
  end.






(** ** Session id, timestamps and row count *)

(** The [session_id] variable after the loop has seen [recs], from [cur]. *)
Fixpoint sid_scan (stem : string) (cur : json) (recs : list json) : json :=
  match recs with
  | [] => cur
  | r :: rest =>
      if is_browser_metadata r then sid_scan stem (field r "original_uuid" (JStr stem)) rest
      else sid_scan stem (if truthy cur then cur else field r "sessionId" (JStr stem)) rest
  end.

Fixpoint first_truthy (xs : list json) : option json :=
  match xs with
  | [] => None
  | x :: r => if truthy x then Some x else first_truthy r
  end.

(** The truthy timestamps of the records other than browser-export metadata. *)
Definition record_timestamps (recs : list json) : list json :=
  filter truthy (map (fun r => field r "timestamp" JNull)
                   (filter (fun r => negb (is_browser_metadata r)) recs)).

Definition is_jstr (v : json) : bool :=
  match v with JStr _ => true | _ => false end.

Definition has_type (t : string) (r : json) : bool := is_str (field r "type" JNull) t.

Definition no_browser_metadata (recs : list json) : bool :=
  forallb (fun r => negb (is_browser_metadata r)) recs.

(** [v] is a string at least / at most [b]. *)
Definition str_above (b : string) (v : json) : Prop :=
  match v with JStr t => String.leb b t = true | _ => False end.

Definition str_below (b : string) (v : json) : Prop :=
  match v with JStr t => String.leb t b = true | _ => False end.

(** A user turn with extra fields. *)
Definition user_turn (extra : list (string * json)) : json :=
  JObj ([("type", JStr "user");
         ("message", JObj [("role", JStr "user"); ("content", JStr "hi")])] ++ extra).

Definition browser_metadata (extra : list (string * json)) : json :=
  JObj ([("type", JStr "metadata"); ("source", JStr "browser_export")] ++ extra).


(** ** File filtering and project names *)

(** [s.replace(old, new)] for one-character [old] and [new]. *)
Fixpoint replace_char (old new : ascii) (s : string) : string :=
  match s with
  | EmptyString => EmptyString
  | String c r => String (if Ascii.eqb c old then new else c) (replace_char old new r)
  end.

(** [dir_to_project] *)
Definition dir_to_project (dirname : string) : string :=
  match dirname with
  | String c rest =>
      if Ascii.eqb c "-" then String "/" (replace_char "-" "/" rest) else dirname
  | EmptyString => dirname
  end.

(** How the client names a project directory, as the docstring of
    [dir_to_project] describes it: every [/] of the path becomes [-]. *)
Definition encode_project_path (p : string) : string := replace_char "/" "-" p.



(** A character of the class [[\\/]]. *)
Definition is_sep (c : ascii) : bool := Ascii.eqb c "/" || Ascii.eqb c "\".

Definition sep_head (s : string) : bool :=
  match s with String c _ => is_sep c | EmptyString => false end.

(** [re.search(r"[\\/](?:subagents?)[\\/]", s)] *)
Fixpoint search_subagents (s : string) : bool :=
  match s with
  | EmptyString => false
  | String c r =>
      (is_sep c && String.prefix "subagent" r
       && (sep_head (str_drop 8 r)
           || (String.prefix "s" (str_drop 8 r) && sep_head (str_drop 9 r))))
      || search_subagents r
  end.

(** [re.search(r"[\\/]processing[\\/]", s)] *)
Fixpoint search_processing (s : string) : bool :=
  match s with
  | EmptyString => false
  | String c r =>
      (is_sep c && String.prefix "processing" r && sep_head (str_drop 10 r))
      || search_processing r
  end.

(** [PurePosixPath.name]: the text after the last [/]. *)
Fixpoint posix_name_aux (cur s : string) : string :=
  match s with
  | EmptyString => cur
  | String c r =>
      if Ascii.eqb c "/" then posix_name_aux EmptyString r
      else posix_name_aux (cur ++ String c EmptyString)%string r
  end.

Definition posix_name (s : string) : string := posix_name_aux EmptyString s.

(** [should_skip_file] on the path's [as_posix()] text. *)
Definition should_skip_file (path : string) (include_agents : bool) : bool :=
  let name := posix_name path in
  search_subagents path || search_processing path
  || (negb include_agents && String.prefix "agent-" name)
  || str_contains ".backup" name
  || str_contains " copy" name || str_contains "(1)" name
  || String.eqb name "sessions-index.json" || String.eqb name "timeline.json"
  || str_contains ".timelines" path.


(** ** Content blocks *)

(** The [tool_use] dict blocks of a content list. *)
Definition tool_use_blocks (raw_content : json) : list json :=
  match raw_content with
  | JArr blocks =>
      filter (fun b => is_dict b && is_str (field b "type" JNull) "tool_use") blocks
  | _ => []
  end.


(** ** Session-level summaries of the records *)









(** A stored token count read back as a number, [NULL] as 0. *)
Definition token_count (v : json) : Z :=
  match num_of v with Some z => z | None => 0%Z end.

Definition token_sum (f : message_row -> json) (rows : list message_row) : Z :=
  fold_right (fun row acc => (token_count (f row) + acc)%Z) 0%Z rows.

(** What every CLI/browser message row looks like. *)
Definition row_shape (row : message_row) : Prop :=
  (is_str (mr_role row) "assistant" = false -> mr_thinking row = JNull)
  /\ (mr_is_tool_result row = false -> mr_tool_use_id row = JNull)
  /\ (exists c, mr_content row = JStr c /\ String.length c <= text_cap)
  /\ (forall t, mr_thinking row = JStr t -> t <> "" /\ String.length t <= text_cap).


(** ** ZIP export loader ([load_web_export]) *)

(** [MAX_ZIP_ENTRY_BYTES] *)
Definition MAX_ZIP_ENTRY_BYTES : N := 500 * 1024 * 1024.

(** One [ZipInfo] of [zf.infolist()]: its name, the uncompressed size its
    header declares, and the text [zf.open] reads. *)
Record zip_info := {
  zi_filename : string;
  zi_file_size : N;
  zi_data : string
}.

(** [s.endswith(suffix)] *)
Definition str_endswith (suffix s : string) : bool :=
  Nat.leb (String.length suffix) (String.length s)
  && String.eqb (substring (String.length s - String.length suffix)
                   (String.length suffix) s) suffix.

(** The [for info in zf.infolist(): ... break] search. *)
Fixpoint find_conversations (infos : list zip_info) : option zip_info :=
  match infos with
  | [] => None
  | info :: rest =>
      if str_endswith "conversations.json" (zi_filename info) then Some info
      else find_conversations rest
  end.

(** [f"{x / (1024 * 1024):.0f}"] for a whole number of bytes [x]: the
    division by a power of two is exact for sizes below 2^53 bytes, and the
    formatting rounds half to even. *)
Definition mb_0f (x : N) : string := dec_of_N (round_half_even x (1024 * 1024)).

Inductive web_load_result :=
| WLOk (conversations : json)
| WLValueError (msg : string)
| WLDecodeError.

(** [load_web_export(zip_path)] on the archive's entries; [zip_name] is
    [zip_path.name] and [json_load] is [json.load] ([None] when it raises). *)
Definition load_web_export (json_load : string -> option json) (zip_name : string)
    (infos : list zip_info) : web_load_result :=
  match find_conversations infos with
  | None =>
      WLValueError ("No conversations.json found in " ++ zip_name ++ ". "
                    ++ "Expected a claude.ai data export ZIP.")
  | Some conversations_path =>
      if N.ltb MAX_ZIP_ENTRY_BYTES (zi_file_size conversations_path) then
        WLValueError ("conversations.json is " ++ mb_0f (zi_file_size conversations_path)
                      ++ " MB, " ++ "exceeds " ++ mb_0f MAX_ZIP_ENTRY_BYTES ++ " MB limit")
      else
        match json_load (zi_data conversations_path) with
        | Some j => WLOk j
        | None => WLDecodeError
        end
  end.


(** ** Database writes ([save_session]) *)

(** Equality of two stored key values. *)
Fixpoint json_eqb (a b : json) : bool :=
  match a, b with
  | JNull, JNull => true
  | JBool x, JBool y => Bool.eqb x y
  | JNum x, JNum y => Z.eqb x y
  | JStr x, JStr y => String.eqb x y
  | JArr xs, JArr ys =>
      (fix go (xs ys : list json) : bool :=
         match xs, ys with
         | [], [] => true
         | x :: xr, y :: yr => json_eqb x y && go xr yr
         | _, _ => false
         end) xs ys
  | JObj xs, JObj ys =>
      (fix go (xs ys : list (string * json)) : bool :=
         match xs, ys with
         | [], [] => true
         | (k, x) :: xr, (k', y) :: yr => String.eqb k k' && json_eqb x y && go xr yr
         | _, _ => false
         end) xs ys
  | _, _ => false
  end.

(** The tables [save_session] writes: the table names in creation order, the
    [sessions] rows by [session_id] and the [messages] rows by
    [(session_id, message_index)].  Keys are compared as values (the
    affinity conversions of SQLite's TEXT columns are not represented); the
    [foreign_keys] declaration is not enforced, as SQLite's default is. *)
Record database := {
  db_tables : list string;
  db_sessions : list (json * session_row);
  db_messages : list ((json * nat) * message_row)
}.

Definition empty_database : database := {| db_tables := []; db_sessions := []; db_messages := [] |}.

(** [db[name]] creating the table on first insert. *)
Definition add_table (name : string) (tables : list string) : list string :=
  if existsb (String.eqb name) tables then tables else tables ++ [name].

Fixpoint lookup_by {K V} (eqk : K -> K -> bool) (k : K) (t : list (K * V)) : option V :=
  match t with
  | [] => None
  | (k', v) :: r => if eqk k' k then Some v else lookup_by eqk k r
  end.

(** [INSERT OR REPLACE]: the row of the same primary key, if any, is deleted
    and the new row inserted. *)
Definition upsert {K V} (eqk : K -> K -> bool) (k : K) (v : V) (t : list (K * V))
  : list (K * V) :=
  filter (fun kv => negb (eqk (fst kv) k)) t ++ [(k, v)].

Definition msg_key_eqb (a b : json * nat) : bool :=
  json_eqb (fst a) (fst b) && Nat.eqb (snd a) (snd b).

Definition msg_key (row : message_row) : json * nat :=
  (mr_session_id row, mr_message_index row).

Definition session_lookup (sid : json) (d : database) : option session_row :=
  lookup_by json_eqb sid (db_sessions d).

Definition message_lookup (key : json * nat) (d : database) : option message_row :=
  lookup_by msg_key_eqb key (db_messages d).

(** [save_session(db, session_row, message_rows)]: the database after it, and
    the returned [session_id]. *)
Definition save_session (db : database) (session_row : session_row)
    (message_rows : list message_row) : database * json :=
  let db1 := {| db_tables := add_table "sessions" (db_tables db);
                db_sessions := upsert json_eqb (sr_session_id session_row) session_row
                                 (db_sessions db);
                db_messages := db_messages db |} in
  let db2 :=
    match message_rows with
    | [] => db1
    | _ =>
        {| db_tables := add_table "messages" (db_tables db1);
           db_sessions := db_sessions db1;
           db_messages := fold_left (fun t row => upsert msg_key_eqb (msg_key row) row t)
                            message_rows (db_messages db1) |}
    end in
  (db2, sr_session_id session_row).


(** ** File collection and the import commands *)

(** [collect_session_files] after the sort: the files of [files] that
    [should_skip_file] keeps. *)
Definition collect_session_files (files : list string) (include_agents : bool) : list string :=
  filter (fun f => negb (should_skip_file f include_agents)) files.

(** [files[:limit]] for a Python [int] [limit]. *)
Definition py_slice_upto {A} (limit : Z) (l : list A) : list A :=
  if Z.leb 0 limit then firstn (Z.to_nat limit) l
  else firstn (List.length l - Z.to_nat (- limit)) l.

Section Commands.

(** The files handed to the command and the database it writes. *)
Variable file : Type.
Variable db : Type.

(** [_project_from_path] followed by [utils.process_session(filepath, project)]
    for one file. *)
Variable process : file -> pyres (option (session_row * list message_row)).

(** [utils.save_session(db, session_row, message_rows)], which may raise. *)
Variable save : db -> session_row -> list message_row -> pyres db.

(** [utils.ensure_db_shape(db)] *)
Variable ensure_db_shape : db -> db.

(** The [for filepath in files: try ... except Exception] loop of [sessions]:
    the database, the session and message counts, and the files recorded in
    [errors]. *)
Fixpoint import_files (dry_run : bool) (d : db) (files : list file)
  : db * nat * nat * list file :=
  match files with
  | [] => (d, 0, 0, [])
  | filepath :: rest =>
      let attempt :=
        r <- process filepath ;;
        match r with
        | None => Ok None
        | Some (session_row, message_rows) =>
            if dry_run then Ok (Some (d, List.length message_rows))
            else (d' <- save d session_row message_rows ;;
                  Ok (Some (d', List.length message_rows)))
        end in
      match attempt with
      | Ok None => import_files dry_run d rest
      | Ok (Some (d', n)) =>
          let '(d'', sessions, messages, errors) := import_files dry_run d' rest in
          (d'', S sessions, n + messages, errors)
      | Raise _ =>
          let '(d'', sessions, messages, errors) := import_files dry_run d rest in
          (d'', sessions, messages, filepath :: errors)
      end
  end.

Inductive sessions_outcome :=
(** [ClickException("No session files found in ...")], raised before the
    database is opened. *)
| SessionsNoFiles
(** The run went through: the database after [ensure_db_shape] ([None] in a
    dry run, which opens none), the two counts, and the failed files (a
    [ClickException] follows when there is one). *)
| SessionsDone (d : option db) (sessions messages : nat) (errors : list file).

(** [sessions] on the collected [files]. *)
Definition sessions_command (files : list file) (limit : option Z) (dry_run : bool) (d0 : db)
  : sessions_outcome :=
  let files := match limit with None => files | Some n => py_slice_upto n files end in
  match files with
  | [] => SessionsNoFiles
  | _ =>
      let '(d, sessions, messages, errors) := import_files dry_run d0 files in
      SessionsDone (if dry_run then None else Some (ensure_db_shape d)) sessions messages errors
  end.

(** What [process] makes of one file: an exception, a session with its
    message count, or nothing. *)
Definition file_failed (f : file) : bool :=
  match process f with Raise _ => true | Ok _ => false end.

Definition file_imported (f : file) : bool :=
  match process f with Ok (Some _) => true | _ => false end.

Definition file_messages (f : file) : nat :=
  match process f with Ok (Some (_, rows)) => List.length rows | _ => 0 end.

(** The loop of [web_export]: the handler's [conv.get("uuid", "?")] is outside
    the [try], so its exception ends the command. *)
Fixpoint import_conversations (d : db) (convs : list json)
  : pyres (db * nat * nat * list json) :=
  match convs with
  | [] => Ok (d, 0, 0, [])
  | conv :: rest =>
      let attempt :=
        r <- process_web_conversation conv ;;
        match r with
        | None => Ok None
        | Some (session_row, message_rows) =>
            d' <- save d session_row message_rows ;; Ok (Some (d', List.length message_rows))
        end in
      match attempt with
      | Ok None => import_conversations d rest
      | Ok (Some (d', n)) =>
          res <- import_conversations d' rest ;;
          let '(d'', sessions, messages, errors) := res in
          Ok (d'', S sessions, n + messages, errors)
      | Raise _ =>
          uuid <- py_get conv "uuid" (JStr "?") ;;
          res <- import_conversations d rest ;;
          let '(d'', sessions, messages, errors) := res in
          Ok (d'', sessions, messages, uuid :: errors)
      end
  end.

Inductive web_outcome :=
| WebLoadFailed (r : web_load_result)
(** [ClickException("No conversations found in export")] *)
| WebNoConversations
(** An exception that escapes the loop: [ensure_db_shape] is not run. *)
| WebCrash (e : exc)
| WebDone (d : db) (sessions messages : nat) (errors : list json).

(** [web_export] on the archive's entries. *)
Definition web_export_command (json_load : string -> option json) (zip_name : string)
    (infos : list zip_info) (d0 : db) : web_outcome :=
  match load_web_export json_load zip_name infos with
  | WLOk conversations =>
      if negb (truthy conversations) then WebNoConversations
      else
        match py_iter conversations with
        | Raise e => WebCrash e
        | Ok convs =>
            match import_conversations d0 convs with
            | Raise e => WebCrash e
            | Ok (d, sessions, messages, errors) =>
                WebDone (ensure_db_shape d) sessions messages errors
            end
        end
  | r => WebLoadFailed r
  end.

End Commands.

Arguments SessionsNoFiles {file db}.
Arguments SessionsDone {file db}.
Arguments WebLoadFailed {db}.
Arguments WebNoConversations {db}.
Arguments WebCrash {db}.
Arguments WebDone {db}.


(** ** Sample inputs for the further properties *)



Definition thinking_block : list (string * json) :=
  [("type", JStr "thinking"); ("thinking", JStr "hm")].

Definition sample_entries : list zip_info :=
  [{| zi_filename := "README.txt"; zi_file_size := 3; zi_data := "hey" |};
   {| zi_filename := "data/conversations.json"; zi_file_size := 2; zi_data := "[]" |};
   {| zi_filename := "old/conversations.json"; zi_file_size := 9; zi_data := "bad" |}].

Definition sample_json_load (s : string) : option json :=
  if String.eqb s "[]" then Some (JArr []) else None.

Definition save_ok (d : database) (s : session_row) (rows : list message_row) : pyres database :=
  Ok (fst (save_session d s rows)).


(** * Examples *)

Example dec_of_Z_ex : dec_of_Z 1024 = "1024"%string /\ dec_of_Z 0 = "0"%string
  /\ dec_of_Z (-37) = "-37"%string.
Proof. repeat split; reflexivity. Qed.

Example py_str_ex :
  py_str (JObj [("type", JStr "x"); ("n", JArr [JNum 1; JBool true; JNull])])
  = "{'type': 'x', 'n': [1, True, None]}"%string.
Proof. reflexivity. Qed.

Example extract_spec_example :
  let blocks := JArr [JObj [("type", JStr "thinking"); ("thinking", JStr "T")];
                      JObj [("type", JStr "text"); ("text", JStr "X")]] in
  extract_thinking blocks = Ok (JStr "T") /\ extract_text blocks = Ok "X".
Proof. split; reflexivity. Qed.

Example bad_line_starts_ex :
  bad_line_starts (pat_type ++ "1}" ++ pat_parent_uuid ++ ":2} " ++ pat_type ++ "3}")%string
  = [0; 10; 27].
Proof. reflexivity. Qed.

(** Spec, section 8: two turns map to roles [user] then [assistant]. *)
Example web_roles_example :
  match process_web_conversation
          (JObj [("uuid", JStr "c");
                 ("chat_messages",
                   JArr [JObj [("sender", JStr "human"); ("text", JStr "hi")];
                         JObj [("sender", JStr "assistant"); ("text", JStr "yo")]])]) with
  | Ok (Some (_, rows)) => map mr_role rows = [JStr "user"; JStr "assistant"]
  | _ => False
  end.
Proof. vm_compute. reflexivity. Qed.

Example cli_session_example :
  match process_session "abc" JNull
          (JArr [JObj [("type", JStr "summary"); ("summary", JStr "S")];
                 JObj [("type", JStr "user"); ("sessionId", JStr "abc-123");
                       ("timestamp", JStr "2025-06-15T10:00:00Z");
                       ("message", JObj [("role", JStr "user"); ("content", JStr "Hello")])];
                 JObj [("type", JStr "assistant"); ("timestamp", JStr "2025-06-15T10:00:05Z");
                       ("message", JObj [("role", JStr "assistant");
                          ("content", JArr [JObj [("type", JStr "text"); ("text", JStr "Sure")]]);
                          ("usage", JObj [("input_tokens", JNum 100); ("output_tokens", JNum 50)])])]]) with
  | Ok (Some (s, rows)) =>
      sr_session_id s = JStr "abc" /\ map mr_content rows = [JStr "Hello"; JStr "Sure"]
      /\ sr_total_tokens s = 150%Z /\ sr_start_time s = JStr "2025-06-15T10:00:00Z"
  | _ => False
  end.
Proof. vm_compute. repeat split; reflexivity. Qed.

(** * Proofs *)

(** ** Generic facts *)

Lemma prefix_app_iff (p s : string) :
  String.prefix p s = true <-> exists post, s = (p ++ post)%string.
Proof.
  revert s; induction p as [|c p IH]; intros s; split.
  - intros _. exists s. reflexivity.
  - intros _. destruct s; reflexivity.
  - destruct s as [|c' s]; simpl; [discriminate|].
    destruct (ascii_dec c c'); [|discriminate].
    subst. intros H. apply IH in H. destruct H as [post ->]. exists post. reflexivity.
  - intros [post Hs]. subst s. simpl.
    destruct (ascii_dec c c); [|congruence]. apply IH. exists post. reflexivity.
Qed.

Lemma str_contains_iff (needle hay : string) :
  str_contains needle hay = true <->
  exists pre post, hay = (pre ++ needle ++ post)%string.
Proof.
  induction hay as [|c hay IH]; cbn [str_contains].
  - rewrite orb_false_r, prefix_app_iff. split.
    + intros [post H]. exists EmptyString, post. exact H.
    + intros [pre [post H]]. destruct pre; simpl in H; [|discriminate].
      exists post. exact H.
  - rewrite orb_true_iff, prefix_app_iff, IH. split.
    + intros [[post H]|[pre [post H]]].
      * exists EmptyString, post. exact H.
      * exists (String c pre), post. rewrite H. reflexivity.
    + intros [pre [post H]]. destruct pre as [|c' pre]; simpl in H.
      * left. exists post. exact H.
      * right. injection H as -> H. exists pre, post. exact H.
Qed.

Lemma round_half_even_nearest (num den : N) :
  (0 < den)%N ->
  (2 * Z.abs (Z.of_N den * Z.of_N (round_half_even num den) - Z.of_N num)
   <= Z.of_N den)%Z.
Proof.
  intros Hden. unfold round_half_even.
  pose proof (N.div_mod num den ltac:(lia)) as Hdm.
  pose proof (N.mod_lt num den ltac:(lia)) as Hr.
  set (q := (num / den)%N) in *. set (r := (num mod den)%N) in *.
  destruct (N.compare_spec (2 * r) den) as [Heq|Hlt|Hgt].
  - destruct (N.even q); lia.
  - lia.
  - lia.
Qed.

(** ** C7 *)
(** C7: [replace_base64_content] on a plain string holding ["base64"] within
    its first 500 characters and longer than 1000 characters returns
    ["[base64 content, ~<N>KB decoded]"], where [N] is an integer nearest to
    [len * 3/4 / 1024] (at distance at most one half); any other plain
    string is returned unchanged. *)
Theorem replace_base64_content_plain_string (s : string) :
  (base64_in_first_500 s -> longer_than_1000 s ->
   exists n : N,
     replace_base64_content (JStr s)
     = Ok ("[base64 content, ~" ++ dec_of_N n ++ "KB decoded]")%string
     /\ (2 * Z.abs (4096 * Z.of_N n - 3 * Z.of_nat (String.length s)) <= 4096)%Z)
  /\ (~ (base64_in_first_500 s /\ longer_than_1000 s) ->
      replace_base64_content (JStr s) = Ok s).
Proof.
  unfold base64_in_first_500, longer_than_1000, replace_base64_content, size_kb_0f.
  split.
  - intros Hb Hl.
    apply str_contains_iff in Hb. rewrite Hb.
    assert (Hlt : Nat.ltb 1000 (String.length s) = true) by (apply Nat.ltb_lt; exact Hl).
    rewrite Hlt. simpl.
    eexists. split; [reflexivity|].
    pose proof (round_half_even_nearest (3 * N.of_nat (String.length s)) 4096
                  ltac:(lia)) as H.
    replace (Z.of_N 4096) with 4096%Z in H by reflexivity.
    rewrite N2Z.inj_mul, nat_N_Z in H. exact H.
  - intros Hn.
    destruct (str_contains "base64" (substring 0 500 s)) eqn:Hc; simpl; [|reflexivity].
    destruct (Nat.ltb 1000 (String.length s)) eqn:Hl; [|reflexivity].
    exfalso. apply Hn. split.
    + apply str_contains_iff. exact Hc.
    + apply Nat.ltb_lt. exact Hl.
Qed.

Lemma replace_base64_content_plain_string_witness :
  base64_in_first_500 base64_sample /\ longer_than_1000 base64_sample /\
  exists n : N,
    replace_base64_content (JStr base64_sample)
    = Ok ("[base64 content, ~" ++ dec_of_N n ++ "KB decoded]")%string
    /\ (2 * Z.abs (4096 * Z.of_N n - 3 * Z.of_nat (String.length base64_sample)) <= 4096)%Z.
Proof.
  assert (Hb : base64_in_first_500 base64_sample).
  { apply str_contains_iff. vm_compute. reflexivity. }
  assert (Hl : longer_than_1000 base64_sample).
  { unfold longer_than_1000. vm_compute. apply Nat.ltb_lt. vm_compute. reflexivity. }
  split; [exact Hb|]. split; [exact Hl|].
  exact (proj1 (replace_base64_content_plain_string base64_sample) Hb Hl).
Defined.

Example replace_base64_tie : replace_base64_content (JStr base64_sample)
  = Ok "[base64 content, ~2KB decoded]".
Proof. vm_compute. reflexivity. Qed.

Lemma all_strs_map_JStr (l : list string) : all_strs (map JStr l) = Ok l.
Proof. induction l as [|x l IH]; simpl; [reflexivity|]. rewrite IH. reflexivity. Qed.

Lemma thinking_blocks_ok (blocks : list json) :
  thinking_values_ok blocks ->
  exists found, map_m thinking_of_block blocks = Ok found
    /\ somes found = map JStr (thinking_texts blocks).
Proof.
  induction blocks as [|b blocks IH]; intros H.
  - exists []. split; reflexivity.
  - assert (Hr : thinking_values_ok blocks)
      by (intros kvs Hin; apply H; right; exact Hin).
    destruct (IH Hr) as [found [Hm Hs]].
    assert (Hb : exists o, thinking_of_block b = Ok o
                 /\ somes (o :: found) = map JStr (thinking_texts (b :: blocks))).
    { destruct b as [| | | | |kvs]; try (exists None; split; [reflexivity|exact Hs]).
      unfold thinking_of_block. simpl.
      destruct (is_str (obj_get kvs "type" JNull) "thinking") eqn:Ht; simpl.
      - pose proof (H kvs (or_introl eq_refl) Ht) as Hv.
        destruct (obj_get kvs "thinking" (JStr "")) as [|bb|z|t|l|kv];
          simpl in Hv |- *;
          try (destruct Hv as [[t' Ht']|Hf]; [discriminate Ht'|]);
          try (rewrite Hf; exists None; split; [reflexivity|exact Hs]);
          try (exists None; split; [reflexivity|exact Hs]).
        destruct (String.eqb t "") eqn:Ht0; simpl.
        + exists None. split; [reflexivity|exact Hs].
        + exists (Some (JStr t)). split; [reflexivity|]. simpl. rewrite Hs. reflexivity.
      - exists None. split; [reflexivity|exact Hs]. }
    destruct Hb as [o [Ho Hso]].
    exists (o :: found). simpl. rewrite Ho, Hm. split; [reflexivity|exact Hso].
Qed.

(** C6 (amended): [extract_thinking] returns null for every non-list input;
    on a list (whose thinking blocks carry string or empty texts) it returns
    the non-empty texts of the thinking-typed blocks joined with newlines in
    order, and null when there is none — in particular when every thinking
    block has an empty text. *)
Theorem extract_thinking_spec (blocks : list json) :
  thinking_values_ok blocks ->
  (forall v, is_list v = false -> extract_thinking v = Ok JNull)
  /\ extract_thinking (JArr blocks)
     = Ok (match thinking_texts blocks with
           | [] => JNull
           | ts => JStr (join_strings newline ts)
           end).
Proof.
  intros H. split.
  - intros v Hv. destruct v; try reflexivity. discriminate Hv.
  - destruct (thinking_blocks_ok blocks H) as [found [Hm Hs]].
    unfold extract_thinking. simpl. rewrite Hm. simpl. rewrite Hs.
    destruct (thinking_texts blocks) as [|t ts]; [reflexivity|].
    unfold py_join. pose proof (all_strs_map_JStr (t :: ts)) as Ha.
    simpl in Ha |- *. destruct (all_strs (map JStr ts)); [|discriminate Ha].
    injection Ha as ->. reflexivity.
Qed.

Lemma extract_thinking_spec_witness :
  thinking_values_ok
    [JObj [("type", JStr "thinking"); ("thinking", JStr "T")];
     JObj [("type", JStr "text"); ("text", JStr "X")]]
  /\ extract_thinking (JArr [JObj [("type", JStr "thinking"); ("thinking", JStr "T")];
                             JObj [("type", JStr "text"); ("text", JStr "X")]])
     = Ok (JStr "T").
Proof.
  assert (H : thinking_values_ok
    [JObj [("type", JStr "thinking"); ("thinking", JStr "T")];
     JObj [("type", JStr "text"); ("text", JStr "X")]]).
  { intros kvs Hin Ht. simpl in Hin.
    destruct Hin as [Hk|[Hk|[]]]; injection Hk as <-; left; eexists; reflexivity. }
  split; [exact H|].
  exact (proj2 (extract_thinking_spec _ H)).
Defined.

(** C6 counterexample: a list whose only thinking block has an empty text
    yields null, not the empty joined text. *)
Lemma extract_thinking_empty_text_counterexample :
  extract_thinking (JArr [JObj [("type", JStr "thinking"); ("thinking", JStr "")]])
  = Ok JNull
  /\ extract_thinking (JArr [JObj [("type", JStr "thinking"); ("thinking", JStr "")]])
     <> Ok (JStr "").
Proof. split; [reflexivity|]. vm_compute. discriminate. Qed.

(** Peel the [pbind]s (and pair matches) of a hypothesis [H : _ = Ok _],
    keeping an equation for each intermediate result. *)
Ltac pyres_inv H :=
  repeat (simpl in H;
    match type of H with
    | pbind ?m _ = Ok _ =>
        let E := fresh "E" in
        destruct m eqn:E; [| discriminate H]
    | context [match ?x with (_, _) => _ end] =>
        let E := fresh "E" in
        destruct x eqn:E
    end); simpl in H.

Lemma usage_value_get kvs u v k :
  py_get (obj_get kvs "message" (JObj [])) "usage" (JObj []) = Ok u ->
  py_get u k (JNum 0) = Ok v ->
  usage_value (JObj kvs) k = v.
Proof.
  unfold usage_value, field. intros Hu Hv.
  destruct (obj_get kvs "message" (JObj [])); try discriminate Hu.
  injection Hu as <-. destruct (obj_get _ "usage" _); try discriminate Hv.
  injection Hv as <-. reflexivity.
Qed.

Lemma message_of_record_row st sid rtype ts kvs row models tin tout :
  message_of_record st sid rtype ts (JObj kvs) = Ok (row, models, tin, tout) ->
  mr_message_index row = ps_msg_index st
  /\ mr_session_id row = sid
  /\ mr_record_type row = rtype
  /\ mr_timestamp row = ts
  /\ mr_uuid row = obj_get kvs "uuid" JNull
  /\ mr_input_tokens row = py_or (usage_value (JObj kvs) "input_tokens") JNull
  /\ mr_output_tokens row = py_or (usage_value (JObj kvs) "output_tokens") JNull
  /\ mr_cache_read_tokens row = py_or (usage_value (JObj kvs) "cache_read_input_tokens") JNull
  /\ mr_cache_create_tokens row = py_or (usage_value (JObj kvs) "cache_creation_input_tokens") JNull
  /\ exists s, mr_content row = JStr s.
Proof.
  intros H. unfold message_of_record in H.
  pyres_inv H.
  injection H as <- _ _ _.
  simpl. repeat split; try reflexivity;
    try (erewrite usage_value_get; [reflexivity|eassumption|eassumption]).
  eexists. reflexivity.
Qed.

(** The branches of [ps_step] after the browser-metadata test. *)
Ltac step_tail H kvs :=
  pyres_inv H;
  destruct (is_str (obj_get kvs "type" JNull) "summary") eqn:Hsum; simpl in H;
  [ pyres_inv H; injection H as <-; left; simpl; auto
  | destruct (is_str (obj_get kvs "type" JNull) "custom-title") eqn:Hct; simpl in H;
    [ pyres_inv H; injection H as <-; left; simpl; auto
    | destruct (is_str (obj_get kvs "type" JNull) "file-history-snapshot") eqn:Hfhs;
      simpl in H;
      [ injection H as <-; left; simpl; auto
      | pyres_inv H; injection H as <-; right; simpl; split; [reflexivity|];
        match goal with
        | E : message_of_record _ _ _ _ _ = Ok (?row, _, _, _) |- _ =>
            exists row; apply message_of_record_row in E;
            destruct E as (Hi & _ & Ht & Hts & Hu & H1 & H2 & H3 & H4 & Hc);
            unfold row_of_record, field; repeat split; auto
        end ] ] ].

Lemma ps_step_rows stem st r st' :
  ps_step stem st r = Ok st' ->
  (is_turn r = false /\ ps_message_rows st' = ps_message_rows st
   /\ ps_msg_index st' = ps_msg_index st)
  \/ (is_turn r = true /\ exists row,
        ps_message_rows st' = ps_message_rows st ++ [row]
        /\ ps_msg_index st' = S (ps_msg_index st)
        /\ mr_message_index row = ps_msg_index st
        /\ row_of_record row r).
Proof.
  intros H. destruct r as [| | | | |kvs]; try discriminate H.
  unfold ps_step in H. simpl in H.
  unfold is_turn, is_browser_metadata, field.
  destruct (is_str (obj_get kvs "type" JNull) "metadata") eqn:Hmeta; simpl in H.
  - destruct (is_str (obj_get kvs "source" JNull) "browser_export") eqn:Hsrc; simpl in H.
    + injection H as <-. left. simpl. auto.
    + step_tail H kvs.
  - step_tail H kvs.
Qed.

Lemma ps_loop_rows stem st recs st' :
  ps_loop stem st recs = Ok st' ->
  exists new, ps_message_rows st' = ps_message_rows st ++ new
    /\ ps_msg_index st' = ps_msg_index st + List.length new
    /\ map mr_message_index new = seq (ps_msg_index st) (List.length new)
    /\ Forall2 row_of_record new (filter is_turn recs).
Proof.
  revert st. induction recs as [|r recs IH]; intros st H; simpl in H.
  - injection H as <-. exists []. rewrite app_nil_r, Nat.add_0_r. auto.
  - destruct (ps_step stem st r) as [st1|e] eqn:Hs; [|discriminate H]. simpl in H.
    destruct (IH st1 H) as (new & Hrows & Hidx & Hseq & Hf).
    destruct (ps_step_rows stem st r st1 Hs)
      as [(Ht & Hr1 & Hi1)|(Ht & row & Hr1 & Hi1 & Hir & Hrow)].
    + exists new. simpl. rewrite Ht. rewrite Hrows, Hr1, Hidx, Hi1.
      rewrite Hi1 in Hseq. auto.
    + exists (row :: new). simpl. rewrite Ht.
      rewrite Hrows, Hr1, <- app_assoc, Hidx, Hi1. simpl.
      repeat split; try (f_equal; lia).
      * rewrite Hir. f_equal. rewrite Hi1 in Hseq. exact Hseq.
      * constructor; assumption.
Qed.

(** What a produced session row is made of. *)
Lemma process_session_inv stem project records s rows :
  process_session stem project records = Ok (Some (s, rows)) ->
  exists recs st, py_iter records = Ok recs
    /\ ps_loop stem pstate_init recs = Ok st
    /\ truthy (ps_session_id st) = true
    /\ rows = ps_message_rows st
    /\ sr_session_id s = ps_session_id st
    /\ min_or (ps_timestamps st) JNull = Ok (sr_start_time s)
    /\ max_or (ps_timestamps st) JNull = Ok (sr_end_time s).
Proof.
  intros H. unfold process_session in H.
  destruct (truthy records); simpl in H; [|discriminate H].
  destruct (py_iter records) as [recs|e] eqn:Hi; simpl in H; [|discriminate H].
  destruct (ps_loop stem pstate_init recs) as [st|e] eqn:Hl; simpl in H; [|discriminate H].
  destruct (truthy (ps_session_id st)) eqn:Hsid; simpl in H; [|discriminate H].
  pyres_inv H. injection H as <- <-.
  exists recs, st. simpl. auto 10.
Qed.

Lemma process_session_rows stem project records s rows :
  process_session stem project records = Ok (Some (s, rows)) ->
  exists recs, py_iter records = Ok recs
    /\ map mr_message_index rows = seq 0 (List.length rows)
    /\ Forall2 row_of_record rows (filter is_turn recs).
Proof.
  intros H. apply process_session_inv in H.
  destruct H as (recs & st & Hi & Hl & _ & -> & _).
  destruct (ps_loop_rows stem pstate_init recs st Hl) as (new & Hr & _ & Hs & Hf).
  simpl in Hr, Hs. subst. exists recs. auto.
Qed.

Lemma ok_inj {A} (a b : A) : Ok a = Ok b -> a = b.
Proof. intros H. injection H. auto. Qed.

Lemma py_truncate_ok v c :
  py_truncate v = Ok c ->
  c <> JNull /\ ((exists t, v = JStr t) \/ truthy v = false -> exists s, c = JStr s).
Proof.
  unfold py_truncate. destruct (truthy v) eqn:Hv; intros H.
  - destruct v as [| | |t|l|kvs]; try discriminate H.
    + injection H as <-. split; [discriminate|]. intros _. exists (substring 0 text_cap t).
      reflexivity.
    + apply ok_inj in H. subst c. split; [discriminate|].
      intros [[t Ht]|Hf]; [discriminate Ht|]. congruence.
  - injection H as <-. split; [discriminate|]. intros _. eexists. reflexivity.
Qed.

Lemma web_message_row sid i msg row ts :
  web_message sid i msg = Ok (row, ts) ->
  mr_message_index row = i /\ mr_session_id row = sid
  /\ ts = field msg "created_at" JNull /\ web_row_of_msg row msg.
Proof.
  intros H. destruct msg as [| | | | |kvs]; try discriminate H.
  unfold web_message in H. pyres_inv H. injection H as <- <-.
  unfold web_row_of_msg, text_is_str, field. simpl.
  match goal with
  | E : py_truncate _ = Ok _ |- _ => apply py_truncate_ok in E; destruct E as [Hn Hs]
  end.
  repeat split; auto.
  intros Htext. apply Hs.
  match goal with
  | E : (if is_list ?rc && truthy ?rc then _ else _) = Ok (?ctext, _) |- _ =>
      destruct (is_list rc && truthy rc); simpl in E;
      [ pyres_inv E; apply ok_inj in E; injection E as <- _; left; eexists; reflexivity
      | apply ok_inj in E; injection E as <- _ ]
  end.
  unfold py_or.
  destruct Htext as [[t Ht]|Hf].
  - rewrite Ht. destruct (truthy (JStr t)); left; eexists; reflexivity.
  - rewrite Hf. left. eexists. reflexivity.
Qed.

Lemma web_loop_rows sid i msgs rows tss :
  web_loop sid i msgs = Ok (rows, tss) ->
  map mr_message_index rows = seq i (List.length rows)
  /\ List.length rows = List.length msgs
  /\ Forall (fun row => mr_session_id row = sid) rows
  /\ Forall2 web_row_of_msg rows msgs
  /\ tss = filter truthy (map (fun m => field m "created_at" JNull) msgs).
Proof.
  revert i rows tss. induction msgs as [|m msgs IH]; intros i rows tss H; simpl in H.
  - apply ok_inj in H. injection H as <- <-. simpl. auto.
  - destruct (web_message sid i m) as [[row ts]|e] eqn:Hm; simpl in H; [|discriminate H].
    destruct (web_loop sid (S i) msgs) as [[rows' tss']|e] eqn:Hl; simpl in H; [|discriminate H].
    apply ok_inj in H. injection H as <- <-.
    destruct (IH _ _ _ Hl) as (Hs & Hlen & Hsid & Hf & Ht).
    apply web_message_row in Hm. destruct Hm as (Hi & Hsd & Hts & Hw).
    subst ts tss'. simpl. rewrite Hi, Hs, Hlen.
    split; [reflexivity|]. split; [reflexivity|]. split; [constructor; auto|].
    split; [constructor; auto|].
    destruct (truthy (field m "created_at" JNull)); reflexivity.
Qed.

Lemma process_web_inv conv s rows :
  process_web_conversation conv = Ok (Some (s, rows)) ->
  exists kvs msgs tss, conv = JObj kvs
    /\ py_iter (obj_get kvs "chat_messages" (JArr [])) = Ok msgs
    /\ web_loop (obj_get kvs "uuid" (JStr "")) 0 msgs = Ok (rows, tss)
    /\ sr_session_id s = obj_get kvs "uuid" (JStr "").
Proof.
  intros H. destruct conv as [| | | | |kvs]; try discriminate H.
  unfold process_web_conversation in H. simpl in H.
  destruct (truthy (obj_get kvs "chat_messages" (JArr []))); simpl in H; [|discriminate H].
  destruct (py_iter (obj_get kvs "chat_messages" (JArr []))) as [msgs|e] eqn:Hi;
    simpl in H; [|discriminate H].
  destruct (web_loop (obj_get kvs "uuid" (JStr "")) 0 msgs) as [[rows' tss]|e] eqn:Hl;
    simpl in H; [|discriminate H].
  pyres_inv H. apply ok_inj in H. injection H as <- <-.
  exists kvs, msgs, tss. auto.
Qed.

(** ** C2 *)

(** C2: in both normalisers the message rows carry the indices [0 .. N-1]
    in order; in the CLI/browser path the rows correspond one to one, in
    source order, to the records of none of the skipped kinds (so skipped
    records take no index); in the web path to the chat turns. *)
Theorem message_index_contiguous :
  (forall stem project records s rows,
     process_session stem project records = Ok (Some (s, rows)) ->
     exists recs, py_iter records = Ok recs
       /\ map mr_message_index rows = seq 0 (List.length rows)
       /\ Forall2 row_of_record rows (filter is_turn recs))
  /\ (forall conv s rows,
     process_web_conversation conv = Ok (Some (s, rows)) ->
     exists msgs, py_iter (field conv "chat_messages" (JArr [])) = Ok msgs
       /\ map mr_message_index rows = seq 0 (List.length rows)
       /\ Forall2 web_row_of_msg rows msgs).
Proof.
  split.
  - intros stem project records s rows H. exact (process_session_rows _ _ _ _ _ H).
  - intros conv s rows H.
    destruct (process_web_inv conv s rows H) as (kvs & msgs & tss & -> & Hi & Hl & _).
    destruct (web_loop_rows _ _ _ _ _ Hl) as (Hs & _ & _ & Hf & _).
    exists msgs. auto.
Qed.

Lemma message_index_contiguous_witness :
  (exists s rows, process_session "abc-123" JNull (JArr sample_records) = Ok (Some (s, rows))
     /\ map mr_message_index rows = [0; 1])
  /\ (exists s rows, process_web_conversation sample_conversation = Ok (Some (s, rows))
     /\ map mr_message_index rows = [0; 1]).
Proof.
  split.
  - destruct (process_session "abc-123" JNull (JArr sample_records)) as [[[s rows]|]|] eqn:H;
      try (vm_compute in H; discriminate H).
    exists s, rows. split; [reflexivity|].
    destruct (proj1 message_index_contiguous _ _ _ _ _ H) as (recs & Hi & Hs & Hf).
    rewrite Hs. simpl in Hi. injection Hi as <-.
    rewrite (Forall2_length Hf). reflexivity.
  - destruct (process_web_conversation sample_conversation) as [[[s rows]|]|] eqn:H;
      try (vm_compute in H; discriminate H).
    exists s, rows. split; [reflexivity|].
    destruct (proj2 message_index_contiguous _ _ _ H) as (msgs & Hi & Hs & Hf).
    rewrite Hs. simpl in Hi. injection Hi as <-.
    rewrite (Forall2_length Hf). reflexivity.
Defined.

(** ** C9 *)

Lemma py_or_null_cases (v : json) :
  (truthy v = false /\ py_or v JNull = JNull) \/ (truthy v = true /\ py_or v JNull = v).
Proof. unfold py_or. destruct (truthy v); auto. Qed.

(** C9: in every row of the CLI/browser path each of the four token fields is
    the record's usage value when that is truthy and null otherwise (so null
    when the value is absent, read as 0, or zero), and is never the
    integer 0. *)
Theorem token_fields_never_zero stem project records s rows :
  process_session stem project records = Ok (Some (s, rows)) ->
  exists recs, py_iter records = Ok recs
    /\ Forall2 (fun row r =>
         mr_input_tokens row = py_or (usage_value r "input_tokens") JNull
         /\ mr_output_tokens row = py_or (usage_value r "output_tokens") JNull
         /\ mr_cache_read_tokens row = py_or (usage_value r "cache_read_input_tokens") JNull
         /\ mr_cache_create_tokens row
            = py_or (usage_value r "cache_creation_input_tokens") JNull)
         rows (filter is_turn recs)
    /\ Forall (fun row =>
         token_stored (mr_input_tokens row) /\ token_stored (mr_output_tokens row)
         /\ token_stored (mr_cache_read_tokens row)
         /\ token_stored (mr_cache_create_tokens row)
         /\ mr_input_tokens row <> JNum 0 /\ mr_output_tokens row <> JNum 0
         /\ mr_cache_read_tokens row <> JNum 0 /\ mr_cache_create_tokens row <> JNum 0)
         rows.
Proof.
  intros H. destruct (process_session_rows _ _ _ _ _ H) as (recs & Hi & _ & Hf).
  exists recs. split; [exact Hi|]. split.
  - eapply Forall2_impl; [|exact Hf].
    intros row r (_ & _ & _ & H1 & H2 & H3 & H4 & _). auto.
  - clear H. induction Hf as [|row r rows' recs' Hrow Hf IH]; constructor; [|exact IH].
    destruct Hrow as (_ & _ & _ & H1 & H2 & H3 & H4 & _).
    assert (K : forall f v, f = py_or v JNull -> token_stored f /\ f <> JNum 0).
    { intros f v ->. unfold token_stored.
      destruct (py_or_null_cases v) as [[_ ->]|[Ht ->]].
      - split; [left; reflexivity|discriminate].
      - split; [right; exact Ht|]. intros ->. discriminate Ht. }
    destruct (K _ _ H1), (K _ _ H2), (K _ _ H3), (K _ _ H4).
    repeat split; assumption.
Qed.

Lemma token_fields_never_zero_witness :
  exists s rows, process_session "abc-123" JNull (JArr sample_records) = Ok (Some (s, rows))
    /\ map mr_cache_read_tokens rows = [JNull; JNull]
    /\ Forall (fun row => mr_cache_read_tokens row <> JNum 0) rows.
Proof.
  destruct (process_session "abc-123" JNull (JArr sample_records)) as [[[s rows]|]|] eqn:H;
    try (vm_compute in H; discriminate H).
  exists s, rows. split; [reflexivity|]. split.
  - vm_compute in H. injection H as _ <-. reflexivity.
  - destruct (token_fields_never_zero _ _ _ _ _ H) as (recs & _ & _ & Hall).
    eapply Forall_impl; [|exact Hall]. intros row (_ & _ & _ & _ & _ & _ & Hc & _). exact Hc.
Defined.

(** ** C10 *)




(** ** C3 *)

(** C3: the CLI/browser path only produces a session row with a truthy
    (non-empty) session id, but the web path produces one with the empty
    id for a conversation that has chat turns and no [uuid], together with
    its message rows. *)
Theorem session_id_nonempty_web_gap :
  (forall stem project records s rows,
     process_session stem project records = Ok (Some (s, rows)) ->
     truthy (sr_session_id s) = true)
  /\ match process_web_conversation
            (JObj [("chat_messages",
                     JArr [JObj [("sender", JStr "human"); ("text", JStr "hi")]])]) with
     | Ok (Some (s, rows)) => sr_session_id s = JStr "" /\ List.length rows = 1
     | _ => False
     end.
Proof.
  split.
  - intros stem project records s rows H.
    destruct (process_session_inv _ _ _ _ _ H) as (recs & st & _ & _ & Ht & _ & Hs & _).
    rewrite Hs. exact Ht.
  - vm_compute. split; reflexivity.
Qed.

Lemma session_id_nonempty_web_gap_witness :
  exists s rows, process_session "abc-123" JNull (JArr sample_records) = Ok (Some (s, rows))
    /\ truthy (sr_session_id s) = true.
Proof.
  destruct (process_session "abc-123" JNull (JArr sample_records)) as [[[s rows]|]|] eqn:H;
    try (vm_compute in H; discriminate H).
  exists s, rows. split; [reflexivity|]. exact (proj1 session_id_nonempty_web_gap _ _ _ _ _ H).
Defined.

(** ** C5 *)


















(** ** C1, C4 and C8 *)

Lemma ps_step_sid_ts stem st r st' :
  ps_step stem st r = Ok st' ->
  ps_session_id st' =
    (if is_browser_metadata r then field r "original_uuid" (JStr stem)
     else if truthy (ps_session_id st) then ps_session_id st
     else field r "sessionId" (JStr stem))
  /\ ps_timestamps st' =
    ps_timestamps st
    ++ (if is_browser_metadata r then []
        else if truthy (field r "timestamp" JNull) then [field r "timestamp" JNull] else []).
Proof.
  intros H. destruct r as [| | | | |kvs]; try discriminate H.
  unfold ps_step in H. simpl in H.
  unfold is_browser_metadata, field.
  destruct (is_str (obj_get kvs "type" JNull) "metadata") eqn:Hmeta; simpl in H.
  - destruct (is_str (obj_get kvs "source" JNull) "browser_export") eqn:Hsrc; simpl in H.
    + injection H as <-. simpl. rewrite app_nil_r. auto.
    + destruct (truthy (ps_session_id st)) eqn:Htr; simpl in H;
      pyres_inv H;
      repeat match type of H with
      | (if ?b then _ else _) = Ok _ => destruct b; simpl in H; pyres_inv H
      end;
      apply ok_inj in H; subst st'; simpl;
      (split; [reflexivity|]; destruct (truthy (obj_get kvs "timestamp" JNull));
       rewrite ?app_nil_r; reflexivity).
  - destruct (truthy (ps_session_id st)) eqn:Htr; simpl in H;
    pyres_inv H;
    repeat match type of H with
    | (if ?b then _ else _) = Ok _ => destruct b; simpl in H; pyres_inv H
    end;
    apply ok_inj in H; subst st'; simpl;
      (split; [reflexivity|]; destruct (truthy (obj_get kvs "timestamp" JNull));
       rewrite ?app_nil_r; reflexivity).
Qed.

Lemma ps_loop_sid_ts stem st recs st' :
  ps_loop stem st recs = Ok st' ->
  ps_session_id st' = sid_scan stem (ps_session_id st) recs
  /\ ps_timestamps st' = ps_timestamps st ++ record_timestamps recs.
Proof.
  revert st. induction recs as [|r recs IH]; intros st H; simpl in H.
  - apply ok_inj in H. subst st'. rewrite app_nil_r. auto.
  - destruct (ps_step stem st r) as [st1|e] eqn:Hs; [|discriminate H]. simpl in H.
    destruct (IH st1 H) as [Hsid Hts].
    destruct (ps_step_sid_ts stem st r st1 Hs) as [Hsid1 Hts1].
    rewrite Hsid, Hts, Hts1, Hsid1. unfold record_timestamps. simpl.
    destruct (is_browser_metadata r); simpl; cbv beta; (split; [reflexivity|]).
    { rewrite app_nil_r. reflexivity. }
    destruct (truthy (field r "timestamp" JNull)); simpl; rewrite <- ?app_assoc; reflexivity.
Qed.

Lemma sid_scan_keep stem cur recs :
  no_browser_metadata recs = true -> truthy cur = true -> sid_scan stem cur recs = cur.
Proof.
  induction recs as [|r recs IH]; intros Hn Ht; [reflexivity|].
  simpl in Hn. apply andb_prop in Hn as [Hr Hn]. apply negb_true_iff in Hr.
  simpl. rewrite Hr, Ht. apply IH; assumption.
Qed.

Lemma sid_scan_first stem cur recs v :
  no_browser_metadata recs = true -> truthy cur = false ->
  sid_scan stem cur recs = v -> truthy v = true ->
  first_truthy (map (fun r => field r "sessionId" (JStr stem)) recs) = Some v.
Proof.
  revert cur. induction recs as [|r recs IH]; intros cur Hn Ht Hv Htv.
  - simpl in Hv. subst v. congruence.
  - simpl in Hn. apply andb_prop in Hn as [Hr Hn]. apply negb_true_iff in Hr.
    simpl in Hv. rewrite Hr, Ht in Hv. simpl.
    destruct (truthy (field r "sessionId" (JStr stem))) eqn:Hf.
    + rewrite sid_scan_keep in Hv by assumption. congruence.
    + exact (IH _ Hn Hf Hv Htv).
Qed.

(** String order: [String.compare] is transitive. *)
Lemma ascii_compare_lt_trans a b c :
  Ascii.compare a b = Lt -> Ascii.compare b c = Lt -> Ascii.compare a c = Lt.
Proof.
  unfold Ascii.compare. rewrite !N.compare_lt_iff. lia.
Qed.

Lemma ascii_compare_eq a b : Ascii.compare a b = Eq -> a = b.
Proof. apply Ascii.compare_eq_iff. Qed.

Lemma ascii_compare_refl a : Ascii.compare a a = Eq.
Proof. unfold Ascii.compare. apply N.compare_refl. Qed.

Lemma string_compare_lt_trans a b c :
  String.compare a b = Lt -> String.compare b c = Lt -> String.compare a c = Lt.
Proof.
  revert b c. induction a as [|x a IH]; intros b c H1 H2;
    destruct b as [|y b]; destruct c as [|z c]; simpl in *; try discriminate; auto.
  destruct (Ascii.compare x y) eqn:Exy; try discriminate;
  destruct (Ascii.compare y z) eqn:Eyz; try discriminate.
  - apply ascii_compare_eq in Exy, Eyz. subst. rewrite ascii_compare_refl. eauto.
  - apply ascii_compare_eq in Exy. subst. rewrite Eyz. reflexivity.
  - apply ascii_compare_eq in Eyz. subst. rewrite Exy. reflexivity.
  - rewrite (ascii_compare_lt_trans _ _ _ Exy Eyz). reflexivity.
Qed.

Lemma string_compare_refl a : String.compare a a = Eq.
Proof. induction a as [|x a IH]; simpl; [reflexivity|]. rewrite ascii_compare_refl. exact IH. Qed.

Lemma string_leb_refl a : String.leb a a = true.
Proof. unfold String.leb. rewrite string_compare_refl. reflexivity. Qed.

Lemma string_leb_trans a b c :
  String.leb a b = true -> String.leb b c = true -> String.leb a c = true.
Proof.
  unfold String.leb.
  destruct (String.compare a b) eqn:Eab; try discriminate;
  destruct (String.compare b c) eqn:Ebc; try discriminate; intros _ _.
  - apply String.compare_eq_iff in Eab, Ebc. subst. rewrite string_compare_refl. reflexivity.
  - apply String.compare_eq_iff in Eab. subst. rewrite Ebc. reflexivity.
  - apply String.compare_eq_iff in Ebc. subst. rewrite Eab. reflexivity.
  - rewrite (string_compare_lt_trans _ _ _ Eab Ebc). reflexivity.
Qed.

Lemma string_ltb_leb a b : String.ltb a b = true -> String.leb a b = true.
Proof. unfold String.ltb, String.leb. destruct (String.compare a b); congruence. Qed.

Lemma string_not_ltb a b : String.ltb a b = false -> String.leb b a = true.
Proof.
  unfold String.ltb, String.leb. rewrite (String.compare_antisym b a).
  destruct (String.compare a b); simpl; congruence.
Qed.

Lemma py_min_from_spec xs : forall a m,
  forallb is_jstr xs = true -> py_min_from (JStr a) xs = Ok m ->
  exists b, m = JStr b /\ In (JStr b) (JStr a :: xs) /\ Forall (str_above b) (JStr a :: xs).
Proof.
  induction xs as [|x xs IH]; intros a m Hs H; simpl in H.
  - apply ok_inj in H. subst m. exists a. split; [reflexivity|]. split; [left; reflexivity|].
    constructor; [apply string_leb_refl|constructor].
  - simpl in Hs. apply andb_prop in Hs as [Hx Hs].
    destruct x as [| | |x| |]; try discriminate Hx. simpl in H.
    destruct (String.ltb x a) eqn:Hlt; simpl in H.
    + destruct (IH x m Hs H) as (b & -> & Hin & Hall).
      inversion Hall as [|? ? Hbx Hrest]; subst.
      exists b. split; [reflexivity|]. split; [right; exact Hin|].
      constructor; [|exact Hall].
      exact (string_leb_trans _ _ _ Hbx (string_ltb_leb _ _ Hlt)).
    + destruct (IH a m Hs H) as (b & -> & Hin & Hall).
      inversion Hall as [|? ? Hba Hrest]; subst.
      exists b. split; [reflexivity|].
      split; [destruct Hin as [Hin|Hin]; [left; exact Hin|right; right; exact Hin]|].
      constructor; [exact Hba|]. constructor; [|exact Hrest].
      exact (string_leb_trans _ _ _ Hba (string_not_ltb _ _ Hlt)).
Qed.

Lemma py_max_from_spec xs : forall a m,
  forallb is_jstr xs = true -> py_max_from (JStr a) xs = Ok m ->
  exists b, m = JStr b /\ In (JStr b) (JStr a :: xs) /\ Forall (str_below b) (JStr a :: xs).
Proof.
  induction xs as [|x xs IH]; intros a m Hs H; simpl in H.
  - apply ok_inj in H. subst m. exists a. split; [reflexivity|]. split; [left; reflexivity|].
    constructor; [apply string_leb_refl|constructor].
  - simpl in Hs. apply andb_prop in Hs as [Hx Hs].
    destruct x as [| | |x| |]; try discriminate Hx. simpl in H.
    destruct (String.ltb a x) eqn:Hlt; simpl in H.
    + destruct (IH x m Hs H) as (b & -> & Hin & Hall).
      inversion Hall as [|? ? Hbx Hrest]; subst.
      exists b. split; [reflexivity|]. split; [right; exact Hin|].
      constructor; [|exact Hall].
      exact (string_leb_trans _ _ _ (string_ltb_leb _ _ Hlt) Hbx).
    + destruct (IH a m Hs H) as (b & -> & Hin & Hall).
      inversion Hall as [|? ? Hba Hrest]; subst.
      exists b. split; [reflexivity|].
      split; [destruct Hin as [Hin|Hin]; [left; exact Hin|right; right; exact Hin]|].
      constructor; [exact Hba|]. constructor; [|exact Hrest].
      exact (string_leb_trans _ _ _ (string_not_ltb _ _ Hlt) Hba).
Qed.

Lemma min_max_or_spec xs lo hi :
  forallb is_jstr xs = true -> xs <> [] ->
  min_or xs JNull = Ok lo -> max_or xs JNull = Ok hi ->
  exists a b, lo = JStr a /\ hi = JStr b /\ In lo xs /\ In hi xs
    /\ Forall (str_above a) xs /\ Forall (str_below b) xs.
Proof.
  intros Hs Hne Hlo Hhi. destruct xs as [|x xs]; [congruence|].
  simpl in Hs. apply andb_prop in Hs as [Hx Hs].
  destruct x as [| | |x| |]; try discriminate Hx.
  destruct (py_min_from_spec xs x lo Hs Hlo) as (a & -> & Ha & Hfa).
  destruct (py_max_from_spec xs x hi Hs Hhi) as (b & -> & Hb & Hfb).
  exists a, b. auto 6.
Qed.

Lemma is_str_excl v a b : is_str v a = true -> a <> b -> is_str v b = false.
Proof.
  destruct v; simpl; try discriminate.
  intros H Hab. apply String.eqb_eq in H. subst. apply String.eqb_neq. exact Hab.
Qed.

Lemma turn_partition recs :
  length (filter is_turn recs) + length (filter is_browser_metadata recs)
  + length (filter (has_type "summary") recs)
  + length (filter (has_type "custom-title") recs)
  + length (filter (has_type "file-history-snapshot") recs) = length recs.
Proof.
  induction recs as [|r recs IH]; [reflexivity|].
  cbn [filter length].
  change (is_turn r) with
    (negb (is_browser_metadata r) && negb (is_str (field r "type" JNull) "summary")
     && negb (is_str (field r "type" JNull) "custom-title")
     && negb (is_str (field r "type" JNull) "file-history-snapshot")).
  change (has_type "summary" r) with (is_str (field r "type" JNull) "summary").
  change (has_type "custom-title" r) with (is_str (field r "type" JNull) "custom-title").
  change (has_type "file-history-snapshot" r)
    with (is_str (field r "type" JNull) "file-history-snapshot").
  destruct (is_browser_metadata r) eqn:Eb.
  - unfold is_browser_metadata in Eb. apply andb_prop in Eb as [Em _].
    rewrite (is_str_excl _ _ "summary" Em), (is_str_excl _ _ "custom-title" Em),
      (is_str_excl _ _ "file-history-snapshot" Em) by discriminate.
    cbn [negb andb length]. lia.
  - destruct (is_str (field r "type" JNull) "summary") eqn:E1.
    + rewrite (is_str_excl _ _ "custom-title" E1),
        (is_str_excl _ _ "file-history-snapshot" E1) by discriminate.
      cbn [negb andb length]. lia.
    + destruct (is_str (field r "type" JNull) "custom-title") eqn:E2.
      * rewrite (is_str_excl _ _ "file-history-snapshot" E2) by discriminate.
        cbn [negb andb length]. lia.
      * destruct (is_str (field r "type" JNull) "file-history-snapshot");
          cbn [negb andb length]; lia.
Qed.

Lemma process_session_no_id stem project records recs st :
  py_iter records = Ok recs -> ps_loop stem pstate_init recs = Ok st ->
  truthy (ps_session_id st) = false ->
  process_session stem project records = Ok None.
Proof.
  intros Hi Hl Ht. unfold process_session.
  destruct (truthy records); [|reflexivity]. simpl.
  rewrite Hi. simpl. rewrite Hl. simpl. rewrite Ht. reflexivity.
Qed.

(** C1 (corrected): in the CLI/browser path a produced session has as many
    message rows as loaded records minus its browser-export metadata,
    summary, custom-title and file-history-snapshot records (a metadata
    record of another source does give a row); when the final session id is
    falsy, no session and no row is produced.  In the web path there is one
    row per chat turn. *)
Theorem message_row_count :
  (forall stem project records s rows,
     process_session stem project records = Ok (Some (s, rows)) ->
     exists recs, py_iter records = Ok recs
       /\ length rows + length (filter is_browser_metadata recs)
          + length (filter (has_type "summary") recs)
          + length (filter (has_type "custom-title") recs)
          + length (filter (has_type "file-history-snapshot") recs) = length recs)
  /\ (forall stem project records recs st,
        py_iter records = Ok recs -> ps_loop stem pstate_init recs = Ok st ->
        truthy (ps_session_id st) = false ->
        process_session stem project records = Ok None)
  /\ (forall conv s rows,
        process_web_conversation conv = Ok (Some (s, rows)) ->
        exists kvs msgs, conv = JObj kvs
          /\ py_iter (obj_get kvs "chat_messages" (JArr [])) = Ok msgs
          /\ length rows = length msgs).
Proof.
  split; [|split].
  - intros stem project records s rows H.
    destruct (process_session_inv _ _ _ _ _ H) as (recs & st & Hi & Hl & _ & Hr & _).
    destruct (ps_loop_rows _ _ _ _ Hl) as (new & Hrows & _ & _ & Hf).
    exists recs. split; [exact Hi|].
    rewrite Hr, Hrows. simpl. rewrite (Forall2_length Hf). apply turn_partition.
  - exact process_session_no_id.
  - intros conv s rows H.
    destruct (process_web_inv _ _ _ H) as (kvs & msgs & tss & Hc & Hi & Hl & _).
    destruct (web_loop_rows _ _ _ _ _ Hl) as (_ & Hlen & _).
    exists kvs, msgs. auto.
Qed.

(** C4 (corrected): the session id of a produced CLI/browser session is the
    loop's [session_id] after all records: a browser-export metadata record
    sets it to its [original_uuid] (the stem when the key is missing) whatever
    it held, any other record sets it, while it is falsy, to its [sessionId]
    (the stem when the key is missing).  With no browser-export metadata
    record it is the first truthy one of these per-record values, so a
    record without [sessionId] before one with it makes the stem the id. *)
Theorem session_id_resolution stem project records s rows :
  process_session stem project records = Ok (Some (s, rows)) ->
  exists recs, py_iter records = Ok recs
    /\ sr_session_id s = sid_scan stem JNull recs
    /\ truthy (sr_session_id s) = true
    /\ (no_browser_metadata recs = true ->
        first_truthy (map (fun r => field r "sessionId" (JStr stem)) recs)
        = Some (sr_session_id s)).
Proof.
  intros H.
  destruct (process_session_inv _ _ _ _ _ H) as (recs & st & Hi & Hl & Ht & _ & Hs & _).
  destruct (ps_loop_sid_ts _ _ _ _ Hl) as [Hsid _].
  exists recs. rewrite Hs, Hsid. simpl. rewrite Hsid in Ht.
  split; [exact Hi|]. split; [reflexivity|]. split; [exact Ht|].
  intros Hn. exact (sid_scan_first stem JNull recs _ Hn eq_refl eq_refl Ht).
Qed.

(** C8 (corrected): the start and end times of a produced CLI/browser
    session are null when no record other than browser-export metadata has
    a truthy timestamp; when those timestamps are all strings, they are the
    least and the greatest of them in lexicographic string order.  The
    timestamps of browser-export metadata records are left out. *)
Theorem session_time_bounds stem project records s rows :
  process_session stem project records = Ok (Some (s, rows)) ->
  exists recs, py_iter records = Ok recs
    /\ (record_timestamps recs = [] -> sr_start_time s = JNull /\ sr_end_time s = JNull)
    /\ (forallb is_jstr (record_timestamps recs) = true -> record_timestamps recs <> [] ->
        exists a b, sr_start_time s = JStr a /\ sr_end_time s = JStr b
          /\ In (JStr a) (record_timestamps recs) /\ In (JStr b) (record_timestamps recs)
          /\ Forall (str_above a) (record_timestamps recs)
          /\ Forall (str_below b) (record_timestamps recs)).
Proof.
  intros H.
  destruct (process_session_inv _ _ _ _ _ H) as (recs & st & Hi & Hl & _ & _ & _ & Hlo & Hhi).
  destruct (ps_loop_sid_ts _ _ _ _ Hl) as [_ Hts].
  simpl in Hts. rewrite Hts in Hlo, Hhi.
  exists recs. split; [exact Hi|]. split.
  - intros He. rewrite He in Hlo, Hhi. simpl in Hlo, Hhi.
    apply ok_inj in Hlo, Hhi. auto.
  - intros Hs Hne.
    destruct (min_max_or_spec _ _ _ Hs Hne Hlo Hhi) as (a & b & Ha & Hb & Hina & Hinb & Hfa & Hfb).
    exists a, b. rewrite <- Ha, <- Hb. auto 7.
Qed.

Lemma message_row_count_counterexample :
  process_session "f" JNull (JArr [user_turn [("sessionId", JStr "")]]) = Ok None
  /\ match process_session "f" JNull
             (JArr [JObj [("type", JStr "metadata"); ("sessionId", JStr "s")]]) with
     | Ok (Some (_, rows)) => length rows = 1
     | _ => False
     end.
Proof. split; vm_compute; reflexivity. Qed.

Lemma message_row_count_witness :
  exists s rows, process_session "abc-123" JNull (JArr sample_records) = Ok (Some (s, rows))
    /\ exists recs, py_iter (JArr sample_records) = Ok recs
       /\ length rows + length (filter is_browser_metadata recs)
          + length (filter (has_type "summary") recs)
          + length (filter (has_type "custom-title") recs)
          + length (filter (has_type "file-history-snapshot") recs) = length recs.
Proof.
  destruct (process_session "abc-123" JNull (JArr sample_records)) as [[[s rows]|]|] eqn:H;
    try (vm_compute in H; discriminate H).
  exists s, rows. split; [reflexivity|].
  exact (proj1 message_row_count _ _ _ _ _ H).
Defined.

Lemma session_id_resolution_counterexample :
  match process_session "f" JNull
          (JArr [JObj [("type", JStr "summary"); ("summary", JStr "S")];
                 user_turn [("sessionId", JStr "abc")]]) with
  | Ok (Some (s, _)) => sr_session_id s = JStr "f"
  | _ => False
  end
  /\ match process_session "f" JNull
             (JArr [user_turn [("sessionId", JStr "abc")];
                    browser_metadata [("original_uuid", JStr "zzz")]]) with
     | Ok (Some (s, _)) => sr_session_id s = JStr "zzz"
     | _ => False
     end.
Proof. split; vm_compute; reflexivity. Qed.

Lemma session_id_resolution_witness :
  exists s rows,
    process_session "f" JNull (JArr [user_turn [("sessionId", JStr "abc")]])
    = Ok (Some (s, rows))
    /\ exists recs, py_iter (JArr [user_turn [("sessionId", JStr "abc")]]) = Ok recs
       /\ sr_session_id s = sid_scan "f" JNull recs
       /\ truthy (sr_session_id s) = true
       /\ (no_browser_metadata recs = true ->
           first_truthy (map (fun r => field r "sessionId" (JStr "f")) recs)
           = Some (sr_session_id s)).
Proof.
  destruct (process_session "f" JNull (JArr [user_turn [("sessionId", JStr "abc")]]))
    as [[[s rows]|]|] eqn:H; try (vm_compute in H; discriminate H).
  exists s, rows. split; [reflexivity|].
  exact (session_id_resolution _ _ _ _ _ H).
Defined.

Lemma session_time_bounds_counterexample :
  match process_session "f" JNull
          (JArr [browser_metadata [("original_uuid", JStr "s"); ("timestamp", JStr "2000")];
                 user_turn [("timestamp", JStr "2020")]]) with
  | Ok (Some (s, _)) => sr_start_time s = JStr "2020"
  | _ => False
  end.
Proof. vm_compute. reflexivity. Qed.

Lemma session_time_bounds_witness :
  exists s rows, process_session "abc-123" JNull (JArr sample_records) = Ok (Some (s, rows))
    /\ exists recs, py_iter (JArr sample_records) = Ok recs
    /\ (record_timestamps recs = [] -> sr_start_time s = JNull /\ sr_end_time s = JNull)
    /\ (forallb is_jstr (record_timestamps recs) = true -> record_timestamps recs <> [] ->
        exists a b, sr_start_time s = JStr a /\ sr_end_time s = JStr b
          /\ In (JStr a) (record_timestamps recs) /\ In (JStr b) (record_timestamps recs)
          /\ Forall (str_above a) (record_timestamps recs)
          /\ Forall (str_below b) (record_timestamps recs)).
Proof.
  destruct (process_session "abc-123" JNull (JArr sample_records)) as [[[s rows]|]|] eqn:H;
    try (vm_compute in H; discriminate H).
  exists s, rows. split; [reflexivity|].
  exact (session_time_bounds _ _ _ _ _ H).
Defined.

(** * Further properties of the code *)

Lemma replace_char_no_old old new s :
  old <> new -> str_has old (replace_char old new s) = false.
Proof.
  intros Hne. induction s as [|c r IH]; [reflexivity|]. simpl.
  destruct (Ascii.eqb c old) eqn:E.
  - rewrite IH. destruct (Ascii.eqb old new) eqn:E2; [|reflexivity].
    apply Ascii.eqb_eq in E2. contradiction.
  - rewrite IH. rewrite Ascii.eqb_sym, E. reflexivity.
Qed.

Lemma replace_char_inverse a b s :
  str_has b s = false -> replace_char b a (replace_char a b s) = s.
Proof.
  induction s as [|c r IH]; intros H; [reflexivity|]. simpl in H.
  apply orb_false_iff in H as [H1 H2]. simpl. rewrite IH by exact H2.
  destruct (Ascii.eqb c a) eqn:E.
  - rewrite Ascii.eqb_refl. apply Ascii.eqb_eq in E. subst. reflexivity.
  - rewrite Ascii.eqb_sym, H1. reflexivity.
Qed.

(** project directory names decode back to the path exactly when the path
    has no hyphen. *)
Theorem dir_to_project_round_trip (p : string) :
  String.prefix "/" p = true ->
  (dir_to_project (encode_project_path p) = p <-> str_has "-" p = false).
Proof.
  intros Hp. apply prefix_app_iff in Hp. destruct Hp as [r ->]. simpl.
  unfold encode_project_path. simpl. split.
  - intros H. injection H as H. rewrite <- H.
    apply replace_char_no_old. discriminate.
  - intros H. rewrite replace_char_inverse by exact H. reflexivity.
Qed.




Lemma search_subagents_app a s :
  search_subagents s = true -> search_subagents (a ++ s) = true.
Proof.
  induction a as [|c a IH]; intros H; [exact H|]. simpl. rewrite IH by exact H. apply orb_true_r.
Qed.

Lemma search_processing_app a s :
  search_processing s = true -> search_processing (a ++ s) = true.
Proof.
  induction a as [|c a IH]; intros H; [exact H|]. simpl. rewrite IH by exact H. apply orb_true_r.
Qed.

(** a file anywhere below a directory named [subagent], [subagents] or
    [processing] is skipped, with or without [--include-agents]. *)
Theorem should_skip_agent_dirs (a d b : string) (include_agents : bool) :
  In d ["subagent"; "subagents"; "processing"] ->
  should_skip_file (a ++ "/" ++ d ++ "/" ++ b) include_agents = true.
Proof.
  intros Hd. unfold should_skip_file.
  destruct Hd as [<-|[<-|[<-|[]]]].
  - rewrite search_subagents_app by reflexivity. reflexivity.
  - rewrite search_subagents_app by reflexivity. reflexivity.
  - rewrite search_processing_app by reflexivity. rewrite orb_true_r. reflexivity.
Qed.

(** [--include-agents] only lets through files whose name starts with
    [agent-] and that no other rule skips. *)
Lemma should_skip_agents_split (path : string) :
  should_skip_file path false
  = should_skip_file path true || String.prefix "agent-" (posix_name path).
Proof.
  unfold should_skip_file. simpl.
  destruct (search_subagents path), (search_processing path),
    (String.prefix "agent-" (posix_name path)); simpl; try reflexivity.
  all: rewrite ?orb_true_r, ?orb_false_r; reflexivity.
Qed.

(** [collect_session_files] without [--include-agents] keeps the files it
    keeps with it, except those whose name starts with [agent-]. *)
Theorem collect_session_files_agents files :
  collect_session_files files false
  = filter (fun f => negb (String.prefix "agent-" (posix_name f)))
      (collect_session_files files true).
Proof.
  unfold collect_session_files. induction files as [|f files IH]; [reflexivity|].
  simpl. rewrite should_skip_agents_split.
  destruct (should_skip_file f true); simpl; [exact IH|].
  destruct (String.prefix "agent-" (posix_name f)); simpl; rewrite IH; reflexivity.
Qed.


Ltac rewrite_bools :=
  repeat match goal with
  | E : ?b = true |- context [?b] => progress rewrite E
  | E : ?b = false |- context [?b] => progress rewrite E
  end.

Lemma first_seen_ok cur kvs k a :
  first_seen cur (JObj kvs) k = Ok a -> a = if truthy cur then cur else obj_get kvs k JNull.
Proof. unfold first_seen. destruct (truthy cur); simpl; intros H; apply ok_inj in H; auto. Qed.

Lemma pm_ok pm kvs a :
  (if truthy pm then Ok pm
   else Ok (if truthy (obj_get kvs "permissionMode" JNull)
            then obj_get kvs "permissionMode" JNull else pm)) = Ok a ->
  a = if truthy pm then pm
      else if truthy (obj_get kvs "permissionMode" JNull)
           then obj_get kvs "permissionMode" JNull else pm.
Proof. destruct (truthy pm); intros H; apply ok_inj in H; auto. Qed.

Ltac ps_fields_finish H :=
  apply ok_inj in H; subst;
  repeat match goal with
  | E : first_seen _ _ _ = Ok _ |- _ => apply first_seen_ok in E; subst
  | E : (if truthy _ then Ok _ else Ok _) = Ok _ |- _ => apply pm_ok in E; subst
  end;
  rewrite_bools; simpl; rewrite_bools; simpl;
  repeat match goal with
  | E : is_str ?v ?a = true |- context [is_str ?v ?b] =>
      rewrite (is_str_excl v a b E) by discriminate
  end;
  repeat split; intros; try discriminate; try reflexivity;
  try (eexists; split; [eassumption | reflexivity]).

Lemma ps_step_fields stem st r st' :
  ps_step stem st r = Ok st' ->
  if is_browser_metadata r then
    ps_summary st' = ps_summary st /\ ps_custom_title st' = field r "name" JNull
    /\ ps_source st' = "browser" /\ ps_cwd st' = ps_cwd st
    /\ ps_client_version st' = ps_client_version st
    /\ ps_permission_mode st' = ps_permission_mode st
    /\ ps_models st' = ps_models st
    /\ ps_total_input_tokens st' = ps_total_input_tokens st
    /\ ps_total_output_tokens st' = ps_total_output_tokens st
    /\ ps_message_rows st' = ps_message_rows st
  else
    ps_cwd st' = (if truthy (ps_cwd st) then ps_cwd st else field r "cwd" JNull)
    /\ ps_client_version st'
       = (if truthy (ps_client_version st) then ps_client_version st
          else field r "version" JNull)
    /\ ps_permission_mode st'
       = (if truthy (ps_permission_mode st) then ps_permission_mode st
          else if truthy (field r "permissionMode" JNull) then field r "permissionMode" JNull
          else ps_permission_mode st)
    /\ ps_source st' = ps_source st
    /\ ps_summary st'
       = (if has_type "summary" r then field r "summary" (JStr "") else ps_summary st)
    /\ ps_custom_title st'
       = (if has_type "custom-title" r then field r "customTitle" (JStr "")
          else ps_custom_title st)
    /\ (is_turn r = false ->
        ps_models st' = ps_models st
        /\ ps_total_input_tokens st' = ps_total_input_tokens st
        /\ ps_total_output_tokens st' = ps_total_output_tokens st
        /\ ps_message_rows st' = ps_message_rows st)
    /\ (is_turn r = true ->
        exists row,
          message_of_record st (ps_session_id st') (field r "type" JNull)
            (field r "timestamp" JNull) r
          = Ok (row, ps_models st', ps_total_input_tokens st', ps_total_output_tokens st')
        /\ ps_message_rows st' = ps_message_rows st ++ [row]).
Proof.
  intros H. destruct r as [| | | | |kvs]; try discriminate H.
  unfold ps_step in H. simpl in H.
  unfold is_turn, has_type, is_browser_metadata, field.
  destruct (is_str (obj_get kvs "type" JNull) "metadata") eqn:Hmeta; simpl in H.
  - destruct (is_str (obj_get kvs "source" JNull) "browser_export") eqn:Hsrc; simpl in H.
    + apply ok_inj in H. subst st'. simpl. auto 20.
    + destruct (truthy (ps_session_id st)) eqn:Htr; simpl in H;
      pyres_inv H;
      repeat match type of H with
      | (if ?b then _ else _) = Ok _ => destruct b eqn:?; simpl in H; pyres_inv H
      end;
      ps_fields_finish H.
  - destruct (truthy (ps_session_id st)) eqn:Htr; simpl in H;
    pyres_inv H;
    repeat match type of H with
    | (if ?b then _ else _) = Ok _ => destruct b eqn:?; simpl in H; pyres_inv H
    end;
    ps_fields_finish H.
Qed.











Lemma py_add_int_ok t n t' :
  py_add_int t n = Ok t' -> t' = (t + token_count (py_or n JNull))%Z.
Proof.
  unfold py_add_int, py_or, token_count. intros H.
  destruct n as [|b|z| | |]; try discriminate H; apply ok_inj in H; subst t'; simpl.
  - destruct b; simpl; lia.
  - destruct (Z.eqb_spec z 0); simpl; lia.
Qed.

Lemma set_add_nonempty v s s' : set_add v s = Ok s' -> s' <> [].
Proof.
  unfold set_add. intros H.
  destruct v; try discriminate H;
  (destruct (existsb _ s) eqn:E; apply ok_inj in H; subst s';
   [destruct s; [discriminate E|discriminate] | destruct s; discriminate]).
Qed.

Lemma message_of_record_totals st sid rtype ts record row models tin tout :
  message_of_record st sid rtype ts record = Ok (row, models, tin, tout) ->
  tin = (ps_total_input_tokens st + token_count (mr_input_tokens row))%Z
  /\ tout = (ps_total_output_tokens st + token_count (mr_output_tokens row))%Z
  /\ (models = [] <-> ps_models st = [] /\ truthy (mr_model row) = false).
Proof.
  intros H. unfold message_of_record in H. pyres_inv H.
  injection H as <- <- <- <-. simpl.
  repeat match goal with E : py_add_int _ _ = Ok _ |- _ => apply py_add_int_ok in E end.
  subst. split; [reflexivity|]. split; [reflexivity|].
  match goal with E : (if truthy ?m then _ else _) = Ok ?ms |- _ =>
    destruct (truthy m); [apply set_add_nonempty in E|apply ok_inj in E; subst ms] end.
  - split; [intros; contradiction|intros [_ F]; discriminate F].
  - tauto.
Qed.


Lemma ps_loop_totals stem st recs st' :
  ps_loop stem st recs = Ok st' ->
  exists new, ps_message_rows st' = ps_message_rows st ++ new
    /\ ps_total_input_tokens st' = (ps_total_input_tokens st + token_sum mr_input_tokens new)%Z
    /\ ps_total_output_tokens st'
       = (ps_total_output_tokens st + token_sum mr_output_tokens new)%Z
    /\ (ps_models st' = [] <->
        ps_models st = [] /\ Forall (fun row => truthy (mr_model row) = false) new).
Proof.
  revert st. induction recs as [|r recs IH]; intros st H; simpl in H.
  - apply ok_inj in H. subst st'. exists []. rewrite app_nil_r. simpl.
    split; [reflexivity|]. split; [lia|]. split; [lia|].
    split; [intros; split; [assumption|constructor]|tauto].
  - destruct (ps_step stem st r) as [st1|e] eqn:Hs; [|discriminate H]. simpl in H.
    destruct (IH st1 H) as (new & Hr & Hi & Ho & Hm).
    pose proof (ps_step_fields stem st r st1 Hs) as Hf.
    destruct (is_browser_metadata r).
    + destruct Hf as (_ & _ & _ & _ & _ & _ & Em & Ei & Eo & Er).
      exists new. rewrite Hr, Hi, Ho, Er, Ei, Eo, <- Em. auto.
    + destruct Hf as (_ & _ & _ & _ & _ & _ & Hnt & Ht).
      destruct (is_turn r).
      * destruct (Ht eq_refl) as (row & Hmr & Er).
        destruct (message_of_record_totals _ _ _ _ _ _ _ _ _ Hmr) as (Ei & Eo & Em).
        exists (row :: new). rewrite Hr, Er, <- app_assoc. simpl.
        rewrite Hi, Ho, Ei, Eo. split; [reflexivity|]. split; [lia|]. split; [lia|]. split.
        -- intros K. apply Hm in K as [K1 K2]. apply Em in K1 as [K1 K3]. auto.
        -- intros [K1 K2]. inversion K2; subst. apply Hm. split; [apply Em|]; auto.
      * destruct (Hnt eq_refl) as (Em & Ei & Eo & Er).
        exists new. rewrite Hr, Hi, Ho, Er, Ei, Eo, <- Em. auto.
Qed.

(** What [process_session] copies from the final loop state. *)
Lemma process_session_state stem project records s rows :
  process_session stem project records = Ok (Some (s, rows)) ->
  exists recs st, py_iter records = Ok recs
    /\ ps_loop stem pstate_init recs = Ok st
    /\ rows = ps_message_rows st
    /\ sr_session_id s = ps_session_id st
    /\ sr_project s = project
    /\ sr_cwd s = ps_cwd st
    /\ sr_client_version s = ps_client_version st
    /\ sr_permission_mode s = ps_permission_mode st
    /\ sr_summary s = ps_summary st
    /\ sr_custom_title s = ps_custom_title st
    /\ sr_source s = ps_source st
    /\ sr_total_input_tokens s = ps_total_input_tokens st
    /\ sr_total_output_tokens s = ps_total_output_tokens st
    /\ (sr_models s = JNull <-> ps_models st = []).
Proof.
  intros H. unfold process_session in H.
  destruct (truthy records); simpl in H; [|discriminate H].
  destruct (py_iter records) as [recs|e] eqn:Hi; simpl in H; [|discriminate H].
  destruct (ps_loop stem pstate_init recs) as [st|e] eqn:Hl; simpl in H; [|discriminate H].
  destruct (truthy (ps_session_id st)) eqn:Hsid; simpl in H; [|discriminate H].
  exists recs, st.
  destruct (ps_models st) as [|m ms] eqn:Hm; pyres_inv H.
  all: apply ok_inj in H; inversion H; subst; simpl;
    repeat split; auto; intros; try discriminate.
  subst a. match type of E with pbind ?x _ = _ =>
    destruct x; simpl in E; [apply ok_inj in E|]; discriminate E end.
Qed.


Lemma substring_0_length n s : String.length (substring 0 n s) <= n.
Proof.
  revert n. induction s as [|c s IH]; intros [|n]; simpl; try lia.
  specialize (IH n). lia.
Qed.

Lemma substring_0_nonempty n s : 0 < n -> s <> "" -> substring 0 n s <> "".
Proof. destruct n as [|n]; [lia|]. destruct s; [congruence|]. discriminate. Qed.

Lemma tool_pair_spec rc i b :
  match rc with
  | JArr blocks =>
      match first_tool_result blocks with Some i => (i, true) | None => (JNull, false) end
  | _ => (JNull, false)
  end = (i, b) -> b = false -> i = JNull.
Proof.
  intros H Hb. subst b.
  destruct rc; try (injection H as <-; reflexivity).
  destruct (first_tool_result l); injection H as <-; [discriminate|reflexivity].
Qed.

Lemma message_of_record_shape st sid rtype ts record row models tin tout :
  message_of_record st sid rtype ts record = Ok (row, models, tin, tout) -> row_shape row.
Proof.
  intros H. unfold message_of_record in H. pyres_inv H.
  injection H as <- _ _ _. unfold row_shape. simpl.
  split; [|split; [|split]].
  - intros Hr.
    match goal with E : (if is_str _ "assistant" then _ else _) = Ok ?th |- _ =>
      rewrite Hr in E; apply ok_inj in E; subst th end.
    reflexivity.
  - eapply tool_pair_spec. eassumption.
  - eexists. split; [reflexivity|]. unfold truncate_content.
    destruct (String.eqb _ ""); [simpl; unfold text_cap; lia|apply substring_0_length].
  - intros t Ht. unfold truncate_thinking in Ht.
    match type of Ht with
    | match ?v with _ => _ end = _ =>
        destruct v as [| | |s| |]; try discriminate Ht;
        destruct (String.eqb_spec s ""); [discriminate Ht|]
    end.
    injection Ht as <-. split.
    + apply substring_0_nonempty; [unfold text_cap; lia|assumption].
    + apply substring_0_length.
Qed.

(** A property of the rows that [message_of_record] builds holds for every row
    a loop adds. *)
Lemma ps_loop_rows_Forall (P : message_row -> Prop) stem st recs st' :
  (forall st0 sid rtype ts r row models tin tout,
     message_of_record st0 sid rtype ts r = Ok (row, models, tin, tout) -> P row) ->
  ps_loop stem st recs = Ok st' ->
  Forall P (ps_message_rows st) -> Forall P (ps_message_rows st').
Proof.
  intros HP. revert st. induction recs as [|r recs IH]; intros st H Hf; simpl in H.
  - apply ok_inj in H. subst st'. exact Hf.
  - destruct (ps_step stem st r) as [st1|e] eqn:Hs; [|discriminate H]. simpl in H.
    apply (IH st1 H).
    pose proof (ps_step_fields stem st r st1 Hs) as Hfd.
    destruct (is_browser_metadata r).
    + destruct Hfd as (_ & _ & _ & _ & _ & _ & _ & _ & _ & Er). rewrite Er. exact Hf.
    + destruct Hfd as (_ & _ & _ & _ & _ & _ & Hnt & Ht). destruct (is_turn r).
      * destruct (Ht eq_refl) as (row & Hm & Er). rewrite Er.
        apply Forall_app. split; [exact Hf|]. constructor; [eapply HP; exact Hm|constructor].
      * destruct (Hnt eq_refl) as (_ & _ & _ & Er). rewrite Er. exact Hf.
Qed.

(** Without browser metadata a truthy [session_id], once set, is kept, and
    each row carries the [session_id] of its step. *)
Lemma ps_loop_row_sids stem st recs st' :
  no_browser_metadata recs = true ->
  ps_loop stem st recs = Ok st' ->
  Forall (fun row => truthy (mr_session_id row) = true -> mr_session_id row = ps_session_id st)
    (ps_message_rows st) ->
  Forall (fun row => truthy (mr_session_id row) = true -> mr_session_id row = ps_session_id st')
    (ps_message_rows st').
Proof.
  revert st. induction recs as [|r recs IH]; intros st Hn H Hf; simpl in H.
  - apply ok_inj in H. subst st'. exact Hf.
  - simpl in Hn. apply andb_prop in Hn as [Hb Hn]. apply negb_true_iff in Hb.
    destruct (ps_step stem st r) as [st1|e] eqn:Hs; [|discriminate H]. simpl in H.
    apply (IH st1 Hn H).
    destruct (ps_step_sid_ts stem st r st1 Hs) as [Hsid _]. rewrite Hb in Hsid.
    assert (Hold : Forall (fun row => truthy (mr_session_id row) = true ->
                                      mr_session_id row = ps_session_id st1)
                     (ps_message_rows st)).
    { eapply Forall_impl; [|exact Hf]. intros row Hrow Ht.
      rewrite (Hrow Ht), Hsid. rewrite <- (Hrow Ht), Ht. reflexivity. }
    pose proof (ps_step_fields stem st r st1 Hs) as Hfd. rewrite Hb in Hfd.
    destruct Hfd as (_ & _ & _ & _ & _ & _ & Hnt & Ht). destruct (is_turn r).
    + destruct (Ht eq_refl) as (row & Hm & Er). rewrite Er.
      apply Forall_app. split; [exact Hold|]. constructor; [|constructor].
      destruct r as [| | | | |kvs]; try discriminate Hs.
      apply message_of_record_row in Hm. intros _. apply Hm.
    + destruct (Hnt eq_refl) as (_ & _ & _ & Er). rewrite Er. exact Hold.
Qed.




(** The session's token totals are the sums of its rows' stored counts (a
    null count read as 0), and [models] is null exactly when no row has a
    truthy model. *)
Theorem process_session_totals stem project records s rows :
  process_session stem project records = Ok (Some (s, rows)) ->
  sr_total_input_tokens s = token_sum mr_input_tokens rows
  /\ sr_total_output_tokens s = token_sum mr_output_tokens rows
  /\ (sr_models s = JNull <-> Forall (fun row => truthy (mr_model row) = false) rows).
Proof.
  intros H.
  destruct (process_session_state _ _ _ _ _ H)
    as (recs & st & Hi & Hl & Hr & _ & _ & _ & _ & _ & _ & _ & _ & Hin & Hout & Hm).
  destruct (ps_loop_totals _ _ _ _ Hl) as (new & Hrows & Ei & Eo & Em).
  simpl in Hrows. subst rows. rewrite Hrows.
  rewrite Hin, Hout, Ei, Eo. simpl. split; [reflexivity|]. split; [reflexivity|].
  rewrite Hm, Em. simpl. tauto.
Qed.

(** Every row: thinking is null unless the role is ["assistant"], and a
    non-empty string of at most [text_cap] characters otherwise; the content
    is a string of at most [text_cap] characters; [tool_use_id] is null when
    [is_tool_result] is false. *)
Theorem process_session_row_shape stem project records s rows :
  process_session stem project records = Ok (Some (s, rows)) -> Forall row_shape rows.
Proof.
  intros H.
  destruct (process_session_state _ _ _ _ _ H) as (recs & st & Hi & Hl & Hr & _).
  subst rows. eapply ps_loop_rows_Forall; [|exact Hl|constructor].
  intros. eapply message_of_record_shape. eassumption.
Qed.

(** Without browser-export metadata, a row whose [session_id] is truthy
    carries the session's id. *)
Theorem process_session_row_session_ids stem project records recs s rows :
  process_session stem project records = Ok (Some (s, rows)) ->
  py_iter records = Ok recs ->
  no_browser_metadata recs = true ->
  Forall (fun row => truthy (mr_session_id row) = true -> mr_session_id row = sr_session_id s)
    rows.
Proof.
  intros H Hi' Hn.
  destruct (process_session_state _ _ _ _ _ H) as (recs' & st & Hi & Hl & Hr & Hs & _).
  rewrite Hi in Hi'. apply ok_inj in Hi'. subst recs' rows. rewrite Hs.
  apply (ps_loop_row_sids _ _ _ _ Hn Hl). constructor.
Qed.


Lemma map_m_app {A B} (f : A -> pyres B) l1 l2 :
  map_m f (l1 ++ l2) = (y1 <- map_m f l1 ;; y2 <- map_m f l2 ;; Ok (y1 ++ y2)).
Proof.
  induction l1 as [|x l1 IH]; simpl.
  - destruct (map_m f l2); reflexivity.
  - destruct (f x); simpl; [|reflexivity]. rewrite IH.
    destruct (map_m f l1); simpl; [|reflexivity].
    destruct (map_m f l2); reflexivity.
Qed.

Lemma somes_app {A} (l1 l2 : list (option A)) : somes (l1 ++ l2) = somes l1 ++ somes l2.
Proof. induction l1 as [|[x|] l1 IH]; simpl; congruence. Qed.

Lemma all_strs_raise parts1 x parts2 :
  is_jstr x = false -> all_strs (parts1 ++ x :: parts2) = Raise TypeError.
Proof.
  intros Hx. induction parts1 as [|p parts1 IH]; simpl.
  - destruct x; try reflexivity. discriminate Hx.
  - destruct p; try reflexivity. rewrite IH. reflexivity.
Qed.

(** A [thinking] block adds nothing to [extract_text]: removing it leaves the
    result, text or exception, unchanged. *)
Theorem extract_text_skips_thinking pre post kvs :
  is_str (obj_get kvs "type" JNull) "thinking" = true ->
  extract_text (JArr (pre ++ JObj kvs :: post)) = extract_text (JArr (pre ++ post)).
Proof.
  intros Ht. simpl. rewrite !map_m_app. simpl.
  unfold text_of_block at 2. simpl. rewrite Ht.
  rewrite (is_str_excl _ _ "text" Ht) by discriminate. simpl.
  destruct (map_m text_of_block pre) as [ps|e]; simpl; [|reflexivity].
  destruct (map_m text_of_block post) as [qs|e]; simpl; [|reflexivity].
  rewrite !somes_app. reflexivity.
Qed.

(** A [text] block whose [text] is not a string makes [extract_text] raise
    [TypeError] (from ["\n".join]) once the other blocks are read without
    error. *)
Theorem extract_text_non_string_text pre post kvs ps qs :
  is_str (obj_get kvs "type" JNull) "text" = true ->
  is_jstr (obj_get kvs "text" (JStr "")) = false ->
  map_m text_of_block pre = Ok ps ->
  map_m text_of_block post = Ok qs ->
  extract_text (JArr (pre ++ JObj kvs :: post)) = Raise TypeError.
Proof.
  intros Ht Hs Hp Hq. simpl. rewrite map_m_app, Hp. simpl.
  unfold text_of_block at 1. simpl. rewrite Ht. simpl. rewrite Hq. simpl.
  unfold py_join. rewrite somes_app. simpl. rewrite all_strs_raise by exact Hs.
  reflexivity.
Qed.

(** A dict whose [source] is not a dict (for instance [null]) makes
    [replace_base64_content] raise [AttributeError], and so does an image or
    document block holding one inside [extract_text]. *)
Theorem base64_non_dict_source kvs :
  is_dict (obj_get kvs "source" (JObj [])) = false ->
  replace_base64_content (JObj kvs) = Raise AttributeError
  /\ (is_str (obj_get kvs "type" JNull) "image"
      || is_str (obj_get kvs "type" JNull) "document" = true ->
      forall pre post ps, map_m text_of_block pre = Ok ps ->
      extract_text (JArr (pre ++ JObj kvs :: post)) = Raise AttributeError).
Proof.
  intros Hs.
  assert (Hb : base64_block (JObj kvs) = Raise AttributeError).
  { unfold base64_block. simpl.
    destruct (obj_get kvs "source" (JObj [])); try discriminate Hs; reflexivity. }
  assert (Hr : replace_base64_content (JObj kvs) = Raise AttributeError).
  { simpl. rewrite Hb. reflexivity. }
  split; [exact Hr|].
  intros Hty pre post ps Hp. simpl. rewrite map_m_app, Hp. simpl.
  unfold text_of_block at 1. simpl.
  destruct (is_str (obj_get kvs "type" JNull) "image") eqn:Hi.
  - rewrite (is_str_excl _ _ "text" Hi), (is_str_excl _ _ "thinking" Hi),
      (is_str_excl _ _ "tool_use" Hi), (is_str_excl _ _ "tool_result" Hi)
      by discriminate.
    simpl. rewrite Hb. reflexivity.
  - simpl in Hty.
    rewrite (is_str_excl _ _ "text" Hty), (is_str_excl _ _ "thinking" Hty),
      (is_str_excl _ _ "tool_use" Hty), (is_str_excl _ _ "tool_result" Hty)
      by discriminate.
    simpl. rewrite ?Hb, ?Hty. reflexivity.
Qed.

(** [extract_tool_calls] never raises: it gives the [id], [name] and [input]
    (defaults [""], [""], [{}]) of each [tool_use] dict block, in order. *)
Theorem extract_tool_calls_spec raw_content :
  extract_tool_calls raw_content
  = Ok (map (fun b => (field b "id" (JStr ""), field b "name" (JStr ""),
                      field b "input" (JObj [])))
            (tool_use_blocks raw_content)).
Proof.
  destruct raw_content as [| | | |blocks|]; try reflexivity. simpl.
  induction blocks as [|b blocks IH]; [reflexivity|]. simpl.
  destruct (map_m _ blocks) as [found|e]; simpl in IH; [|discriminate IH].
  apply ok_inj in IH.
  destruct b as [| | | | |kvs]; simpl; try (rewrite IH; reflexivity).
  destruct (is_str (obj_get kvs "type" JNull) "tool_use"); simpl; rewrite IH; reflexivity.
Qed.


(** [load_web_export] reads the first entry whose name ends in
    [conversations.json] and ignores every later entry: the result depends
    only on that entry's declared size and its text. *)
Theorem load_web_export_first_entry json_load zip_name pre info post :
  forallb (fun i => negb (str_endswith "conversations.json" (zi_filename i))) pre = true ->
  str_endswith "conversations.json" (zi_filename info) = true ->
  load_web_export json_load zip_name (pre ++ info :: post)
  = if N.ltb MAX_ZIP_ENTRY_BYTES (zi_file_size info) then
      WLValueError ("conversations.json is " ++ mb_0f (zi_file_size info)
                    ++ " MB, exceeds 500 MB limit")
    else match json_load (zi_data info) with Some j => WLOk j | None => WLDecodeError end.
Proof.
  intros Hpre Hi. unfold load_web_export.
  replace (find_conversations (pre ++ info :: post)) with (Some info).
  - reflexivity.
  - induction pre as [|p pre IH]; simpl; [rewrite Hi; reflexivity|].
    simpl in Hpre. apply andb_prop in Hpre as [Hp Hpre]. apply negb_true_iff in Hp.
    rewrite Hp. exact (IH Hpre).
Qed.



Lemma json_eqb_eq : forall a b, json_eqb a b = true <-> a = b.
Proof.
  fix IH 1. intros [|x|x|x|xs|xs] [|y|y|y|ys|ys]; simpl; try (split; congruence).
  - rewrite Bool.eqb_true_iff. split; congruence.
  - rewrite Z.eqb_eq. split; congruence.
  - rewrite String.eqb_eq. split; congruence.
  - revert ys. induction xs as [|x xr IHx]; intros [|y yr]; try (split; congruence).
    rewrite andb_true_iff, IH, IHx. split; [intros [-> H]; congruence|].
    intros H. injection H as -> ->. auto.
  - revert ys. induction xs as [|[k x] xr IHx]; intros [|[k' y] yr]; try (split; congruence).
    rewrite !andb_true_iff, String.eqb_eq, IH, IHx. split; [intros [[-> ->] H]; congruence|].
    intros H. injection H as -> -> ->. auto.
Qed.

Lemma msg_key_eqb_eq a b : msg_key_eqb a b = true <-> a = b.
Proof.
  destruct a as [x i], b as [y j]. unfold msg_key_eqb. simpl.
  rewrite andb_true_iff, json_eqb_eq, Nat.eqb_eq. split; [intros [-> ->]; reflexivity|].
  intros H. injection H as -> ->. auto.
Qed.

Section Upsert.

Context {K V : Type} (eqk : K -> K -> bool).
Hypothesis eqk_eq : forall a b, eqk a b = true <-> a = b.

Lemma lookup_by_app k (t1 t2 : list (K * V)) :
  lookup_by eqk k (t1 ++ t2)
  = match lookup_by eqk k t1 with Some v => Some v | None => lookup_by eqk k t2 end.
Proof.
  induction t1 as [|[k' v'] t1 IH]; simpl; [reflexivity|].
  destruct (eqk k' k); [reflexivity|exact IH].
Qed.

Lemma lookup_by_filter_other k k' (t : list (K * V)) :
  k' <> k -> lookup_by eqk k' (filter (fun kv => negb (eqk (fst kv) k)) t) = lookup_by eqk k' t.
Proof.
  intros Hne. induction t as [|[k0 v0] t IH]; simpl; [reflexivity|].
  destruct (eqk k0 k) eqn:E; simpl.
  - apply eqk_eq in E. subst k0.
    destruct (eqk k k') eqn:E'; [apply eqk_eq in E'; congruence|exact IH].
  - destruct (eqk k0 k'); [reflexivity|exact IH].
Qed.

Lemma lookup_by_filter_same k (t : list (K * V)) :
  lookup_by eqk k (filter (fun kv => negb (eqk (fst kv) k)) t) = None.
Proof.
  induction t as [|[k0 v0] t IH]; simpl; [reflexivity|].
  destruct (eqk k0 k) eqn:E; simpl; [exact IH|]. rewrite E. exact IH.
Qed.

Lemma lookup_upsert_same k v (t : list (K * V)) : lookup_by eqk k (upsert eqk k v t) = Some v.
Proof.
  unfold upsert. rewrite lookup_by_app, lookup_by_filter_same. simpl.
  replace (eqk k k) with true by (symmetry; apply eqk_eq; reflexivity). reflexivity.
Qed.

Lemma lookup_upsert_other k k' v (t : list (K * V)) :
  k' <> k -> lookup_by eqk k' (upsert eqk k v t) = lookup_by eqk k' t.
Proof.
  intros Hne. unfold upsert. rewrite lookup_by_app, lookup_by_filter_other by exact Hne.
  destruct (lookup_by eqk k' t); [reflexivity|]. simpl.
  destruct (eqk k k') eqn:E; [apply eqk_eq in E; congruence|reflexivity].
Qed.

Lemma lookup_upserts_other (key : V -> K) (rows : list V) k t :
  ~ In k (map key rows) ->
  lookup_by eqk k (fold_left (fun t row => upsert eqk (key row) row t) rows t)
  = lookup_by eqk k t.
Proof.
  revert t. induction rows as [|row rows IH]; intros t Hn; simpl; [reflexivity|].
  simpl in Hn. rewrite IH by tauto. apply lookup_upsert_other. intros E. apply Hn. auto.
Qed.

Lemma lookup_upserts_in (key : V -> K) (rows : list V) t row :
  NoDup (map key rows) -> In row rows ->
  lookup_by eqk (key row) (fold_left (fun t row => upsert eqk (key row) row t) rows t)
  = Some row.
Proof.
  revert t. induction rows as [|r rows IH]; intros t Hnd Hin; [destruct Hin|].
  simpl in Hnd. inversion Hnd as [|? ? Hr Hnd']; subst. simpl.
  destruct Hin as [<-|Hin].
  - rewrite lookup_upserts_other by exact Hr. apply lookup_upsert_same.
  - exact (IH _ Hnd' Hin).
Qed.

End Upsert.



(** Importing a produced session stores the session, finds every message row
    under its own key, and leaves the message rows of index at or beyond the
    new message count untouched: a re-import with fewer messages keeps the
    stale rows of the earlier import. *)
Theorem save_processed_session stem project records s rows db :
  process_session stem project records = Ok (Some (s, rows)) ->
  session_lookup (sr_session_id s) (fst (save_session db s rows)) = Some s
  /\ (forall row, In row rows ->
        message_lookup (msg_key row) (fst (save_session db s rows)) = Some row)
  /\ (forall k i, List.length rows <= i ->
        message_lookup (k, i) (fst (save_session db s rows)) = message_lookup (k, i) db).
Proof.
  intros H. destruct (process_session_rows _ _ _ _ _ H) as (recs & _ & Hidx & _).
  assert (Hother : forall key, ~ In key (map msg_key rows) ->
            message_lookup key (fst (save_session db s rows)) = message_lookup key db).
  { intros key Hk. unfold save_session, message_lookup. destruct rows as [|r rs]; [reflexivity|].
    cbn [db_messages fst]. apply (lookup_upserts_other _ msg_key_eqb_eq). exact Hk. }
  assert (Hin : NoDup (map msg_key rows) -> forall row, In row rows ->
            message_lookup (msg_key row) (fst (save_session db s rows)) = Some row).
  { intros Hnd row Hr. unfold save_session, message_lookup. destruct rows as [|r rs]; [destruct Hr|].
    cbn [db_messages fst]. apply (lookup_upserts_in _ msg_key_eqb_eq); assumption. }
  split; [unfold save_session, session_lookup; destruct rows;
          apply (lookup_upsert_same _ json_eqb_eq)|].
  split.
  - apply Hin. apply (NoDup_map_inv snd). rewrite map_map. simpl.
    change (NoDup (map mr_message_index rows)). rewrite Hidx. apply seq_NoDup.
  - intros k i Hi. apply Hother. intros Hk.
    apply (in_map snd) in Hk. rewrite map_map in Hk. simpl in Hk.
    change (In i (map mr_message_index rows)) in Hk. rewrite Hidx in Hk.
    apply in_seq in Hk. lia.
Qed.


Section CommandFacts.

Context {file db : Type}.
Variable process : file -> pyres (option (session_row * list message_row)).
Variable save : db -> session_row -> list message_row -> pyres db.
Variable ensure : db -> db.

(** With a [save_session] that does not raise, the import loop counts the
    files processed into a session and their messages, records exactly the
    files whose processing raised, in order, and a dry run gives the same
    three results. *)
Theorem import_files_summary dry_run d files :
  (forall d s rows, exists d', save d s rows = Ok d') ->
  let '(_, sessions, messages, errors) := import_files file db process save dry_run d files in
  sessions = List.length (filter (file_imported file process) files)
  /\ messages = list_sum (map (file_messages file process) files)
  /\ errors = filter (file_failed file process) files.
Proof.
  intros Hsave. revert d. induction files as [|f files IH]; intros d; [simpl; auto|].
  simpl. unfold file_imported at 1, file_messages at 1, file_failed at 1.
  destruct (process f) as [[[s rows]|]|e]; simpl.
  - destruct dry_run.
    + specialize (IH d). destruct (import_files _ _ _ _ true d files) as [[[d1 sc] mc] errs].
      destruct IH as (-> & -> & ->). auto.
    + destruct (Hsave d s rows) as [d' ->]. simpl. specialize (IH d').
      destruct (import_files _ _ _ _ false d' files) as [[[d1 sc] mc] errs].
      destruct IH as (-> & -> & ->). auto.
  - exact (IH d).
  - specialize (IH d). destruct (import_files _ _ _ _ dry_run d files) as [[[d1 sc] mc] errs].
    destruct IH as (-> & -> & ->). auto.
Qed.

Lemma firstn_nil_iff {A} n (l : list A) : firstn n l = [] <-> n = 0 \/ l = [].
Proof.
  destruct n, l; simpl; split; intros H; try discriminate H; auto;
    destruct H; discriminate.
Qed.

(** [sessions] stops with "No session files found" exactly when no file is
    left after [files[:limit]]: a zero limit, or a negative one at least as
    large as the number of files, gives it for any directory. *)
Theorem sessions_command_no_files files limit dry_run d0 :
  sessions_command file db process save ensure files (Some limit) dry_run d0 = SessionsNoFiles
  <-> files = [] \/ limit = 0%Z \/ (limit <= - Z.of_nat (List.length files))%Z.
Proof.
  unfold sessions_command, py_slice_upto.
  assert (Hsl : (if Z.leb 0 limit then firstn (Z.to_nat limit) files
                 else firstn (List.length files - Z.to_nat (- limit)) files) = []
                <-> files = [] \/ limit = 0%Z \/ (limit <= - Z.of_nat (List.length files))%Z).
  { destruct (Z.leb_spec 0 limit); rewrite firstn_nil_iff.
    - split; [intros [H1|H1]; [right; left; lia|auto]|].
      intros [H1|[H1|H1]]; [auto|left; subst; reflexivity|].
      destruct files; [auto|simpl in H1; lia].
    - split; [intros [H1|H1]; [right; right; lia|auto]|].
      intros [H1|[H1|H1]]; [auto|lia|left; lia]. }
  rewrite <- Hsl.
  destruct (if Z.leb 0 limit then _ else _) as [|f fs].
  - split; auto.
  - destruct (import_files _ _ _ _ _ _ _) as [[[d sc] mc] errs].
    split; discriminate.
Qed.

Lemma forallb_false_Exists {A} (f : A -> bool) l :
  forallb f l = false -> Exists (fun x => f x = false) l.
Proof.
  induction l as [|x l IH]; simpl; [discriminate|].
  destruct (f x) eqn:E; simpl; intros H; [right; exact (IH H)|left; exact E].
Qed.

Lemma process_web_non_dict conv :
  is_dict conv = false -> process_web_conversation conv = Raise AttributeError.
Proof. destruct conv; try reflexivity. discriminate. Qed.

Lemma import_conversations_raise d convs :
  (forallb is_dict convs = true ->
     exists r, import_conversations db save d convs = Ok r)
  /\ (Exists (fun c => is_dict c = false) convs ->
     import_conversations db save d convs = Raise AttributeError).
Proof.
  revert d. induction convs as [|c convs IH]; intros d.
  - split; [intros; eexists; reflexivity|intros H; inversion H].
  - simpl. destruct (is_dict c) eqn:Hc.
    + destruct c as [| | | | |kvs]; try discriminate Hc.
      assert (Hrest : forall d', (forallb is_dict convs = true ->
                 exists r, import_conversations db save d' convs = Ok r)
               /\ (Exists (fun c => is_dict c = false) convs ->
                 import_conversations db save d' convs = Raise AttributeError)) by exact IH.
      destruct (process_web_conversation (JObj kvs)) as [[[s rows]|]|e]; simpl.
      * destruct (save d s rows) as [d'|e]; simpl.
        -- split.
           ++ intros H. destruct (proj1 (Hrest d') H) as [[[[d1 sc] mc] errs] ->].
              eexists. reflexivity.
           ++ intros H. inversion H as [? ? Hx|? ? Hx]; subst; [discriminate Hx|].
              rewrite (proj2 (Hrest d') Hx). reflexivity.
        -- split.
           ++ intros H. destruct (proj1 (Hrest d) H) as [[[[d1 sc] mc] errs] ->].
              eexists. reflexivity.
           ++ intros H. inversion H as [? ? Hx|? ? Hx]; subst; [discriminate Hx|].
              rewrite (proj2 (Hrest d) Hx). reflexivity.
      * split; [intros H; apply (proj1 (Hrest d) H)|].
        intros H. inversion H as [? ? Hx|? ? Hx]; subst; [discriminate Hx|].
        exact (proj2 (Hrest d) Hx).
      * split.
        -- intros H. destruct (proj1 (Hrest d) H) as [[[[d1 sc] mc] errs] ->].
           eexists. reflexivity.
        -- intros H. inversion H as [? ? Hx|? ? Hx]; subst; [discriminate Hx|].
           rewrite (proj2 (Hrest d) Hx). reflexivity.
    + rewrite process_web_non_dict by exact Hc. simpl.
      destruct c; try discriminate Hc; (split; [discriminate|reflexivity]).
Qed.

(** Once the export has loaded a truthy value, [web_export] ends in an
    uncaught [AttributeError], without [ensure_db_shape], exactly when some
    conversation is not a dict (the handler's [conv.get] raises again);
    otherwise every per-conversation error is caught and the run completes. *)
Theorem web_export_non_dict_crash json_load zip_name infos d0 conversations convs :
  load_web_export json_load zip_name infos = WLOk conversations ->
  truthy conversations = true ->
  py_iter conversations = Ok convs ->
  (web_export_command db save ensure json_load zip_name infos d0 = WebCrash AttributeError
   <-> Exists (fun c => is_dict c = false) convs)
  /\ (forallb is_dict convs = true ->
      exists d sessions messages errors,
        web_export_command db save ensure json_load zip_name infos d0
        = WebDone (ensure d) sessions messages errors).
Proof.
  intros Hl Ht Hi. unfold web_export_command. rewrite Hl, Ht, Hi. simpl.
  destruct (import_conversations_raise d0 convs) as [Hok Hraise].
  split.
  - split.
    + intros H.
      destruct (forallb is_dict convs) eqn:Hall.
      * destruct (Hok eq_refl) as [[[[d sc] mc] errs] Hr]. rewrite Hr in H. discriminate H.
      * exact (forallb_false_Exists _ _ Hall).
    + intros H. rewrite (Hraise H). reflexivity.
  - intros Hall. destruct (Hok Hall) as [[[[d sc] mc] errs] Hr]. rewrite Hr. eauto.
Qed.

End CommandFacts.


(** ** Witnesses of the further properties *)

Lemma dir_to_project_round_trip_witness :
  String.prefix "/" "/home/u/my-app" = true
  /\ (dir_to_project (encode_project_path "/home/u/my-app") = "/home/u/my-app"
      <-> str_has "-" "/home/u/my-app" = false).
Proof. split; [reflexivity|]. apply dir_to_project_round_trip. reflexivity. Defined.


Lemma should_skip_agent_dirs_witness :
  In "subagents" ["subagent"; "subagents"; "processing"]
  /\ should_skip_file ("/p" ++ "/" ++ "subagents" ++ "/" ++ "x.jsonl") false = true.
Proof. split; [simpl; auto|]. apply should_skip_agent_dirs. simpl. auto. Defined.



Lemma process_session_totals_witness :
  exists s rows, process_session "f" JNull (JArr sample_records) = Ok (Some (s, rows))
    /\ sr_total_input_tokens s = token_sum mr_input_tokens rows
    /\ sr_total_output_tokens s = token_sum mr_output_tokens rows
    /\ (sr_models s = JNull <-> Forall (fun row => truthy (mr_model row) = false) rows).
Proof.
  destruct (process_session "f" JNull (JArr sample_records)) as [[[s rows]|]|] eqn:H;
    try (vm_compute in H; discriminate H).
  exists s, rows. split; [reflexivity|]. exact (process_session_totals _ _ _ _ _ H).
Defined.

Lemma process_session_row_shape_witness :
  exists s rows, process_session "f" JNull (JArr sample_records) = Ok (Some (s, rows))
    /\ Forall row_shape rows.
Proof.
  destruct (process_session "f" JNull (JArr sample_records)) as [[[s rows]|]|] eqn:H;
    try (vm_compute in H; discriminate H).
  exists s, rows. split; [reflexivity|]. exact (process_session_row_shape _ _ _ _ _ H).
Defined.

Lemma process_session_row_session_ids_witness :
  exists s rows, process_session "f" JNull (JArr sample_records) = Ok (Some (s, rows))
    /\ py_iter (JArr sample_records) = Ok sample_records
    /\ no_browser_metadata sample_records = true
    /\ Forall (fun row => truthy (mr_session_id row) = true ->
                          mr_session_id row = sr_session_id s) rows.
Proof.
  destruct (process_session "f" JNull (JArr sample_records)) as [[[s rows]|]|] eqn:H;
    try (vm_compute in H; discriminate H).
  exists s, rows. split; [reflexivity|]. split; [reflexivity|]. split; [vm_compute; reflexivity|].
  apply (process_session_row_session_ids _ _ _ sample_records _ _ H); [reflexivity|vm_compute; reflexivity].
Defined.

Lemma extract_text_skips_thinking_witness :
  is_str (obj_get thinking_block "type" JNull) "thinking" = true
  /\ extract_text (JArr ([JStr "a"] ++ JObj thinking_block
                         :: [JObj [("type", JStr "text"); ("text", JStr "b")]]))
     = extract_text (JArr ([JStr "a"] ++ [JObj [("type", JStr "text"); ("text", JStr "b")]])).
Proof. split; [reflexivity|]. apply extract_text_skips_thinking. reflexivity. Defined.

Lemma extract_text_non_string_text_witness :
  is_str (obj_get [("type", JStr "text"); ("text", JNum 5)] "type" JNull) "text" = true
  /\ is_jstr (obj_get [("type", JStr "text"); ("text", JNum 5)] "text" (JStr "")) = false
  /\ extract_text (JArr ([JStr "a"] ++ JObj [("type", JStr "text"); ("text", JNum 5)] :: []))
     = Raise TypeError.
Proof.
  split; [reflexivity|]. split; [reflexivity|].
  apply (extract_text_non_string_text _ _ _ [Some (JStr "a")] []); reflexivity.
Defined.

Lemma base64_non_dict_source_witness :
  is_dict (obj_get [("type", JStr "image"); ("source", JNull)] "source" (JObj [])) = false
  /\ replace_base64_content (JObj [("type", JStr "image"); ("source", JNull)])
     = Raise AttributeError.
Proof.
  split; [reflexivity|]. apply base64_non_dict_source. reflexivity.
Defined.

Lemma load_web_export_first_entry_witness :
  forallb (fun i => negb (str_endswith "conversations.json" (zi_filename i)))
    (firstn 1 sample_entries) = true
  /\ load_web_export sample_json_load "export.zip" sample_entries = WLOk (JArr []).
Proof.
  split; [reflexivity|].
  change sample_entries with (firstn 1 sample_entries ++ nth 1 sample_entries
    {| zi_filename := ""; zi_file_size := 0; zi_data := "" |} :: skipn 2 sample_entries).
  rewrite load_web_export_first_entry by reflexivity. reflexivity.
Defined.


Lemma save_processed_session_witness :
  exists s rows, process_session "f" JNull (JArr sample_records) = Ok (Some (s, rows))
    /\ session_lookup (sr_session_id s) (fst (save_session empty_database s rows)) = Some s
    /\ (forall row, In row rows ->
          message_lookup (msg_key row) (fst (save_session empty_database s rows)) = Some row).
Proof.
  destruct (process_session "f" JNull (JArr sample_records)) as [[[s rows]|]|] eqn:H;
    try (vm_compute in H; discriminate H).
  exists s, rows. split; [reflexivity|].
  destruct (save_processed_session _ _ _ _ _ empty_database H) as (Hs & Hr & _). auto.
Defined.

Lemma import_files_summary_witness :
  let '(_, sessions, messages, errors) :=
    import_files json database (fun r => process_session "f" JNull r) save_ok false
      empty_database [JArr sample_records; JNum 3; JNull] in
  sessions = 1 /\ messages = 2 /\ errors = [JNum 3].
Proof.
  pose proof (import_files_summary (fun r => process_session "f" JNull r) save_ok false
                empty_database [JArr sample_records; JNum 3; JNull]
                (fun d s rows => ex_intro _ _ eq_refl)) as H.
  destruct (import_files _ _ _ _ _ _ _) as [[[d sc] mc] errs].
  destruct H as (-> & -> & ->). vm_compute. auto.
Defined.

Lemma web_export_non_dict_crash_witness :
  load_web_export (fun _ => Some (JArr [JStr "x"])) "export.zip"
    [{| zi_filename := "conversations.json"; zi_file_size := 5; zi_data := "[x]" |}]
  = WLOk (JArr [JStr "x"])
  /\ web_export_command database save_ok (fun d => d) (fun _ => Some (JArr [JStr "x"]))
       "export.zip"
       [{| zi_filename := "conversations.json"; zi_file_size := 5; zi_data := "[x]" |}]
       empty_database
     = WebCrash AttributeError.
Proof.
  split; [reflexivity|].
  apply (web_export_non_dict_crash save_ok (fun d => d) _ _ _ _ (JArr [JStr "x"]) [JStr "x"]);
    try reflexivity.
  constructor. reflexivity.
Defined.

